(** * twenty_percent: the CPU training guide and its task runner

    A shallow embedding of the code of the repository:

    - [training_guide.ipynb], section 3 ([cpu_trainer.py]): the example data,
      [tokenize_function], the training arguments, [custom_data_collator] and
      the order of the top-level calls;
    - [training_guide.ipynb], sections 2 and 4: the install commands and the
      run instructions;
    - [Makefile]: the text of the file, its rules and what [make all] prints.

    Python values are an inductive type, a dict is an association list in
    insertion order, [print] appends to a log of printed texts and a raised
    exception ends the computation: the monad [io] below carries both.  The
    framework (torch, transformers) is not part of the repository: the few
    operations the script calls are modelled from their documented behaviour
    in the modules [Torch] and [Tokenizer], and what the framework alone
    decides (the byte-pair encoding of a text) is a parameter. *)

From Stdlib Require Import String Ascii DecimalString.
From Stdlib Require Import ZArith Bool Arith Lia List.
Import ListNotations.

Local Open Scope string_scope.
Local Open Scope list_scope.

Notation "a +++ b" := (String.append a b) (at level 60, right associativity).

(** ** Text helpers *)

Module Text.

Definition nl : string := String "010"%char EmptyString.
Definition tab : string := String "009"%char EmptyString.
Definition dq : string := String "034"%char EmptyString.

Definition of_nat (n : nat) : string := NilZero.string_of_uint (Nat.to_uint n).
Definition of_Z (z : Z) : string := NilZero.string_of_int (Z.to_int z).

Fixpoint join (sep : string) (l : list string) : string :=
  match l with
  | [] => EmptyString
  | x :: r => match r with [] => x | _ :: _ => x +++ sep +++ join sep r end
  end.

(** [contains pat s]: [pat] occurs in [s] (what [fgrep pat] tests on a line). *)
Fixpoint contains (pat s : string) : bool :=
  String.prefix pat s ||
  match s with
  | EmptyString => false
  | String _ s' => contains pat s'
  end.

(** The text before the first occurrence of the character [c], if any. *)
Fixpoint before (c : ascii) (s : string) : option string :=
  match s with
  | EmptyString => None
  | String a s' =>
      if Ascii.eqb a c then Some EmptyString
      else option_map (String a) (before c s')
  end.

Definition mem (s : string) (l : list string) : bool :=
  existsb (String.eqb s) l.

(** The text after the first occurrence of the character [c], if any. *)
Fixpoint after (c : ascii) (s : string) : option string :=
  match s with
  | EmptyString => None
  | String a s' => if Ascii.eqb a c then Some s' else after c s'
  end.

Definition is_blank (a : ascii) : bool :=
  Ascii.eqb a " "%char || Ascii.eqb a "009"%char.

(** The words of a shell command: split at blanks outside double quotes,
    the quotes removed; a quoted empty text is a word. *)
Fixpoint shell_split_aux (quoted started : bool) (cur : string) (s : string)
  : list string :=
  let flush := if started then [cur] else [] in
  match s with
  | EmptyString => flush
  | String a s' =>
      if Ascii.eqb a "034"%char
      then shell_split_aux (negb quoted) true cur s'
      else if negb quoted && is_blank a
      then flush ++ shell_split_aux false false EmptyString s'
      else shell_split_aux quoted true (cur +++ String a EmptyString) s'
  end.
Definition shell_split (s : string) : list string :=
  shell_split_aux false false EmptyString s.

(** [Some s'] when [s] is [s'] followed by one backslash. *)
Fixpoint continued (s : string) : option string :=
  match s with
  | EmptyString => None
  | String a s' =>
      match s' with
      | EmptyString => if Ascii.eqb a "092"%char then Some EmptyString else None
      | _ => option_map (String a) (continued s')
      end
  end.

End Text.

(** ** Python values, exceptions, printing *)

Module Py.

(** A tensor of integers: its shape and its elements in row-major order.
    Every tensor of the script holds token ids or mask bits. *)
Record Tensor : Type := mkTensor { shape : list nat; data : list Z }.

#[local] Set Warnings "-register-all".
Inductive pyval : Type :=
| PyNone
| PyBool (b : bool)
| PyInt (z : Z)
| PyStr (s : string)
| PyList (l : list pyval)
| PyTensor (t : Tensor)
| PyDict (d : list (string * pyval)).

(** A dict with string keys, in insertion order. *)
Definition dict : Type := list (string * pyval).

Definition keys (d : dict) : list string := map fst d.

Fixpoint dict_get (d : dict) (k : string) : option pyval :=
  match d with
  | [] => None
  | (k', v) :: r => if String.eqb k' k then Some v else dict_get r k
  end.

(** [d[k] = v]: replaces the value of a key that is present, appends a new
    key at the end. *)
Fixpoint dict_set (d : dict) (k : string) (v : pyval) : dict :=
  match d with
  | [] => [(k, v)]
  | (k', v') :: r =>
      if String.eqb k' k then (k', v) :: r else (k', v') :: dict_set r k v
  end.

Inductive exn_kind : Type := TypeError | KeyError | IndexError | RuntimeError.

Record exn : Type := mkExn { kind : exn_kind; msg : string }.

Definition is_TypeError (e : exn) : bool :=
  match kind e with TypeError => true | _ => false end.

(** [type(v).__name__] and the text of [type(v)]. *)
Definition type_name (v : pyval) : string :=
  match v with
  | PyNone => "NoneType"
  | PyBool _ => "bool"
  | PyInt _ => "int"
  | PyStr _ => "str"
  | PyList _ => "list"
  | PyTensor _ => "Tensor"
  | PyDict _ => "dict"
  end.

Definition class_text (v : pyval) : string :=
  match v with
  | PyTensor _ => "<class 'torch.Tensor'>"
  | _ => "<class '" +++ type_name v +++ "'>"
  end.

(** The text of a shape: [torch.Size([2, 32])]. *)
Definition size_text (s : list nat) : string :=
  "torch.Size([" +++ Text.join ", " (map Text.of_nat s) +++ "])".

(** The elements of a tensor as nested brackets (the framework's line
    breaks and column alignment are left out). *)
Fixpoint chunks {A} (n : nat) (count : nat) (l : list A) : list (list A) :=
  match count with
  | O => []
  | S c => firstn n l :: chunks n c (skipn n l)
  end.

Fixpoint nested_text (s : list nat) (xs : list Z) : string :=
  match s with
  | [] => match xs with [] => EmptyString | x :: _ => Text.of_Z x end
  | n :: s' =>
      "[" +++ Text.join ", "
                (map (nested_text s') (chunks (fold_right Nat.mul 1 s') n xs))
          +++ "]"
  end.

Definition tensor_text (t : Tensor) : string :=
  "tensor(" +++ nested_text (shape t) (data t) +++ ")".

(** [repr(v)]; a string is put between single quotes as it is. *)
Fixpoint repr (v : pyval) : string :=
  match v with
  | PyNone => "None"
  | PyBool b => if b then "True" else "False"
  | PyInt z => Text.of_Z z
  | PyStr s => "'" +++ s +++ "'"
  | PyList l =>
      "[" +++ Text.join ", " ((fix go (l : list pyval) : list string :=
                                 match l with
                                 | [] => []
                                 | x :: r => repr x :: go r
                                 end) l) +++ "]"
  | PyTensor t => tensor_text t
  | PyDict d =>
      "{" +++ Text.join ", " ((fix go (d : list (string * pyval)) : list string :=
                                 match d with
                                 | [] => []
                                 | (k, x) :: r => ("'" +++ k +++ "': " +++ repr x) :: go r
                                 end) d) +++ "}"
  end.

(** [str(v)], what an f-string inserts for [{v}]. *)
Definition str (v : pyval) : string :=
  match v with
  | PyStr s => s
  | _ => repr v
  end.

(** [f[key]] for a string key. *)
Definition getitem (f : pyval) (key : string) : exn + pyval :=
  match f with
  | PyDict d =>
      match dict_get d key with
      | Some v => inr v
      | None => inl (mkExn KeyError ("'" +++ key +++ "'"))
      end
  | PyList _ =>
      inl (mkExn TypeError "list indices must be integers or slices, not str")
  | PyStr _ =>
      inl (mkExn TypeError "string indices must be integers")
  | PyTensor _ =>
      inl (mkExn IndexError
             "only integers, slices (`:`), ellipsis (`...`), None and long or byte Variables are valid indices (got str)")
  | _ =>
      inl (mkExn TypeError ("'" +++ type_name f +++ "' object is not subscriptable"))
  end.

(** *** The monad of the script: printed texts and exceptions

    A computation yields the texts it printed, one entry for each call of
    [print], and either the exception that ended it or its value. *)

Definition io (A : Type) : Type := list string * (exn + A).

Definition ret {A} (a : A) : io A := ([], inr a).

Definition bind {A B} (m : io A) (f : A -> io B) : io B :=
  match m with
  | (out, inl e) => (out, inl e)
  | (out, inr a) => let (out', r) := f a in (out ++ out', r)
  end.

Definition print (s : string) : io unit := ([s], inr tt).

Definition lift {A} (r : exn + A) : io A := ([], r).

(** [try: body except TypeError as e: handler e]: an exception of another
    kind is not caught. *)
Definition try_except_TypeError {A} (body : io A) (handler : exn -> io A) : io A :=
  match body with
  | (out, inl e) =>
      if is_TypeError e
      then let (out', r) := handler e in (out ++ out', r)
      else (out, inl e)
  | (out, inr a) => (out, inr a)
  end.

Definition printed {A} (m : io A) : list string := fst m.
Definition outcome {A} (m : io A) : exn + A := snd m.

(** [for x in l: acc = body acc x], stopped by the first exception. *)
Fixpoint for_each {A S} (l : list A) (body : S -> A -> io S) (acc : S) : io S :=
  match l with
  | [] => ret acc
  | x :: r => bind (body acc x) (for_each r body)
  end.

(** [[f x for x in l]] where [f] can raise. *)
Fixpoint comprehension {A B} (f : A -> exn + B) (l : list A) : exn + list B :=
  match l with
  | [] => inr []
  | x :: r =>
      match f x with
      | inl e => inl e
      | inr y =>
          match comprehension f r with
          | inl e => inl e
          | inr ys => inr (y :: ys)
          end
      end
  end.

End Py.

Notation "x <- m ;; k" := (Py.bind m (fun x => k))
  (at level 61, m at next level, right associativity).
Notation "m ;;; k" := (Py.bind m (fun _ => k))
  (at level 61, right associativity).

(** ** The framework's tensor operations *)

Module Torch.
Import Py.

(** The first element that is not a tensor, with its position. *)
Fixpoint first_non_tensor (i : nat) (l : list pyval) : option (nat * pyval) :=
  match l with
  | [] => None
  | PyTensor _ :: r => first_non_tensor (S i) r
  | v :: _ => Some (i, v)
  end.

Fixpoint tensors_of (l : list pyval) : list Tensor :=
  match l with
  | [] => []
  | PyTensor t :: r => t :: tensors_of r
  | _ :: r => tensors_of r
  end.

Definition shape_eqb (s1 s2 : list nat) : bool :=
  if list_eq_dec Nat.eq_dec s1 s2 then true else false.

(** The first tensor whose shape is not [s], with its position. *)
Fixpoint first_other_shape (s : list nat) (i : nat) (l : list Tensor)
  : option (nat * Tensor) :=
  match l with
  | [] => None
  | t :: r => if shape_eqb (shape t) s then first_other_shape s (S i) r
              else Some (i, t)
  end.

Definition shape_text (s : list nat) : string :=
  "[" +++ Text.join ", " (map Text.of_nat s) +++ "]".

(** [torch.stack(elements)] along a new first dimension.  An element that
    is not a tensor is a [TypeError] of the argument parser; an empty list
    and tensors of different shapes are a [RuntimeError]. *)
Definition stack (elements : list pyval) : exn + Tensor :=
  match first_non_tensor 0 elements with
  | Some (i, v) =>
      inl (mkExn TypeError
             ("expected Tensor as element " +++ Text.of_nat i
                +++ " in argument 0, but got " +++ type_name v))
  | None =>
      match tensors_of elements with
      | [] => inl (mkExn RuntimeError "stack expects a non-empty TensorList")
      | t0 :: rest =>
          match first_other_shape (shape t0) 1 rest with
          | Some (i, t) =>
              inl (mkExn RuntimeError
                     ("stack expects each tensor to be equal size, but got "
                        +++ shape_text (shape t0) +++ " at entry 0 and "
                        +++ shape_text (shape t) +++ " at entry " +++ Text.of_nat i))
          | None =>
              inr (mkTensor (length (t0 :: rest) :: shape t0)
                            (concat (map data (t0 :: rest))))
          end
      end
  end.

(** [t.clone()]: a new tensor with the same shape and elements. *)
Definition clone (t : Tensor) : Tensor := mkTensor (shape t) (data t).

(** [t.squeeze(0)]: drops the first dimension when its size is 1. *)
Definition squeeze0 (t : Tensor) : Tensor :=
  match shape t with
  | 1 :: s => mkTensor s (data t)
  | _ => t
  end.

End Torch.

(** ** The framework's tokenizer *)

Module Tokenizer.
Import Py.

(** What a tokenizer call returns: named tensors in insertion order
    ([BatchEncoding]). *)
Definition encoding : Type := list (string * Tensor).

Fixpoint enc_get (e : encoding) (k : string) : exn + Tensor :=
  match e with
  | [] => inl (mkExn KeyError ("'" +++ k +++ "'"))
  | (k', t) :: r => if String.eqb k' k then inr t else enc_get r k
  end.

Fixpoint enc_set (e : encoding) (k : string) (t : Tensor) : encoding :=
  match e with
  | [] => [(k, t)]
  | (k', t') :: r =>
      if String.eqb k' k then (k', t) :: r else (k', t') :: enc_set r k t
  end.

(** Padding on the right up to [max_length]. *)
Definition pad_right (max_length : nat) (fill : Z) (ids : list Z) : list Z :=
  ids ++ repeat fill (max_length - length ids).

Section Call.
(** The ids of the byte-pair encoding of a text, and the id of the padding
    token (the script sets [tokenizer.pad_token = tokenizer.eos_token]):
    both are the framework's. *)
Variable encode : string -> list Z.
Variable pad_token_id : Z.

(** [tokenizer(text, max_length=max_length, truncation=True,
               padding="max_length", return_tensors="pt")]
    for one text: the ids are cut to [max_length], padded to it, and
    returned with the mask of the positions that hold a token, each as a
    tensor with a first dimension of size 1. *)
Definition call (text : string) (max_length : nat) : encoding :=
  let ids := firstn max_length (encode text) in
  let input_ids := pad_right max_length pad_token_id ids in
  let attention_mask := pad_right max_length 0%Z (map (fun _ => 1%Z) ids) in
  [ ("input_ids", mkTensor [1; length input_ids] input_ids);
    ("attention_mask", mkTensor [1; length attention_mask] attention_mask) ].
End Call.

End Tokenizer.

(** ** The script [cpu_trainer.py] *)

Module CpuTrainer.
Import Py.

Definition MODEL_NAME : string := "gpt2".
Definition OUTPUT_DIR : string := "./cpu_trained_model".

(** A row of the dataset: column name and text. *)
Definition row : Type := list (string * string).

Fixpoint row_get (r : row) (k : string) : exn + string :=
  match r with
  | [] => inl (mkExn KeyError ("'" +++ k +++ "'"))
  | (k', v) :: r' => if String.eqb k' k then inr v else row_get r' k
  end.

Definition mini_data : list row :=
  [ [("text", "The quick brown fox")];
    [("text", "jumps over the lazy")];
    [("text", "dog. This is a test.")];
    [("text", "Another example sentence.")] ].

Section Tokenize.
Variable encode : string -> list Z.
Variable pad_token_id : Z.

(** Tokenizes a single example. *)
Definition tokenize_function (example : row) : exn + dict :=
  match row_get example "text" with
  | inl e => inl e
  | inr text =>
      let tokenized_inputs := Tokenizer.call encode pad_token_id text 32 in
      match Tokenizer.enc_get tokenized_inputs "input_ids" with
      | inl e => inl e
      | inr input_ids =>
          let tokenized_inputs :=
            Tokenizer.enc_set tokenized_inputs "labels" (Torch.clone input_ids) in
          inr (map (fun kv => (fst kv, PyTensor (Torch.squeeze0 (snd kv))))
                 tokenized_inputs)
      end
  end.

(** [Dataset.from_list(mini_data).map(tokenize_function)], in the torch
    format and with the column [text] removed: the features the trainer
    hands to the collator, a batch at a time. *)
Definition tokenized_dataset : exn + list pyval :=
  comprehension
    (fun example =>
       match tokenize_function example with
       | inl e => inl e
       | inr d => inr (PyDict d)
       end)
    mini_data.
End Tokenize.

Definition training_args : dict :=
  [ ("output_dir", PyStr OUTPUT_DIR);
    ("num_train_epochs", PyInt 3);
    ("per_device_train_batch_size", PyInt 2);
    ("logging_steps", PyInt 10);
    ("report_to", PyStr "none");
    ("save_strategy", PyStr "epoch");
    ("device", PyStr "cpu");
    ("no_cuda", PyBool true) ].

(** *** The collator *)

(** The diagnostics about [elements_for_stack[0]]. *)
Definition describe_first (e0 : pyval) : io unit :=
  print ("  Type of 'elements_for_stack[0]': " +++ class_text e0) ;;;
  match e0 with
  | PyList l =>
      print ("  Type of 'elements_for_stack[0][0]': "
               +++ match l with
                   | x :: _ => class_text x
                   | [] => "empty list"
                   end) ;;;
      print ("  Value of 'elements_for_stack[0]': " +++ str e0)
  | PyTensor t =>
      print ("  Shape of 'elements_for_stack[0]': " +++ size_text (shape t))
  | _ =>
      print ("  Value of 'elements_for_stack[0]': " +++ str e0)
  end.

(** [[f[key] for f in features]]. *)
Definition elements_of (features : list pyval) (key : string) : exn + list pyval :=
  comprehension (fun f => getitem f key) features.

(** The body of [for key in features[0].keys()], with [first] for
    [features[0]], in two parts.  The first part gathers the elements of
    the key and prints what they are. *)
Definition gather_elements (features : list pyval) (first : pyval)
           (key : string) : io (list pyval) :=
  print (Text.nl +++ "  --- Key: '" +++ key +++ "' ---") ;;;
  v0 <- lift (getitem first key) ;;
  print ("  Type of 'features[0][key]': " +++ class_text v0) ;;;
  elements_for_stack <- lift (elements_of features key) ;;
  print ("  Type of 'elements_for_stack': " +++ class_text (PyList elements_for_stack)) ;;;
  match elements_for_stack with
  | e0 :: _ => describe_first e0
  | [] => ret tt
  end ;;;
  ret elements_for_stack.

Definition stacked_text (stacked : Tensor) : string :=
  "  'batch[key]' stacked successfully. Type: "
    +++ class_text (PyTensor stacked) +++ ", Shape: " +++ size_text (shape stacked).

Definition type_error_text (key : string) (e : exn) : string :=
  "  TypeError during torch.stack for key '" +++ key +++ "': " +++ msg e.

(** The second part is the [try] statement; the batch built so far comes in
    and goes out. *)
Definition stack_into (batch : dict) (key : string)
           (elements_for_stack : list pyval) : io dict :=
  try_except_TypeError
    (stacked <- lift (Torch.stack elements_for_stack) ;;
     print (stacked_text stacked) ;;;
     ret (dict_set batch key (PyTensor stacked)))
    (fun e => print (type_error_text key e) ;;; ret batch).

Definition collate_key (features : list pyval) (first : pyval)
           (batch : dict) (key : string) : io dict :=
  elements_for_stack <- gather_elements features first key ;;
  stack_into batch key elements_for_stack.

(** Collates a batch of tokenized examples with detailed debugging.
    [features] is the list of dataset items of one batch. *)
Definition custom_data_collator (features : list pyval) : io dict :=
  print (Text.nl +++ "--- Inside data collator ---") ;;;
  print ("Type of 'features': " +++ class_text (PyList features)) ;;;
  batch <- match features with
           | [] => ret []
           | first :: _ =>
               print ("Length of 'features': " +++ Text.of_nat (length features)) ;;;
               print ("Type of 'features[0]': " +++ class_text first) ;;;
               match first with
               | PyDict d => for_each (keys d) (collate_key features first) []
               | _ => print "  'features[0]' is NOT a dictionary!" ;;; ret []
               end
           end ;;
  print ("--- End data collator ---" +++ Text.nl) ;;;
  ret batch.

(** The collation the collator is compared with: a dict with the keys of the
    first feature, each mapped to the stack of that key's values across the
    features. *)
Fixpoint stack_columns (features : list pyval) (ks : list string) : option dict :=
  match ks with
  | [] => Some []
  | k :: r =>
      match elements_of features k with
      | inr elements =>
          match Torch.stack elements, stack_columns features r with
          | inr t, Some b => Some ((k, PyTensor t) :: b)
          | _, _ => None
          end
      | inl _ => None
      end
  end.

Definition stack_collation (features : list pyval) : option dict :=
  match features with
  | PyDict d :: _ => stack_columns features (keys d)
  | _ => None
  end.

(** *** The top-level calls, in program order *)

Inductive call : Type :=
| AutoTokenizer_from_pretrained (name : string)
| set_pad_token_to_eos_token
| Dataset_from_list (data : list row)
| Dataset_map_tokenize_function
| Dataset_set_format (format : string)
| Dataset_remove_columns (columns : list string)
| TrainingArguments (kwargs : dict)
| AutoModelForCausalLM_from_pretrained (name : string)
| model_to (device : string)
| Trainer (data_collator : string)
| trainer_train
| print_text (text : string)
| model_eval
| tokenizer_call (text : string)
| input_ids_to (device : string)
| model_generate (max_new_tokens : nat) (do_sample : bool)
| tokenizer_decode
| print_generated_text
| model_save_pretrained (directory : string)
| tokenizer_save_pretrained (directory : string).

(** The calls of the script from [# --- Tokenizer Setup ---] to
    [#---Save---], arguments evaluated before the call they belong to. *)
Definition cpu_trainer : list call :=
  [ (* Tokenizer Setup *)
    AutoTokenizer_from_pretrained MODEL_NAME;
    set_pad_token_to_eos_token;
    (* Create and Tokenize Dataset *)
    Dataset_from_list mini_data;
    Dataset_map_tokenize_function;
    Dataset_set_format "torch";
    Dataset_remove_columns ["text"];
    (* TrainingArguments *)
    TrainingArguments training_args;
    (* Load Model (on CPU) *)
    AutoModelForCausalLM_from_pretrained MODEL_NAME;
    model_to "cpu";
    (* Trainer *)
    Trainer "custom_data_collator";
    (* Train (on CPU) *)
    trainer_train;
    print_text "Training complete!";
    (* Inference (Example) *)
    model_eval;
    tokenizer_call "The quick brown";
    input_ids_to "cpu";
    input_ids_to "cpu";
    model_generate 10 true;
    tokenizer_decode;
    print_text "Prompt: The quick brown";
    print_generated_text;
    (* Save *)
    model_save_pretrained OUTPUT_DIR;
    tokenizer_save_pretrained OUTPUT_DIR ].

(** The stages of the pipeline a call belongs to; building the training
    arguments, moving an object to a device and printing belong to none. *)
Inductive stage : Type :=
| PretrainedModelLoader
| DatasetTokenizerUtilities
| GenericTrainer
| TextGeneration
| SaveToDisk.

Definition stage_eqb (a b : stage) : bool :=
  match a, b with
  | PretrainedModelLoader, PretrainedModelLoader
  | DatasetTokenizerUtilities, DatasetTokenizerUtilities
  | GenericTrainer, GenericTrainer
  | TextGeneration, TextGeneration
  | SaveToDisk, SaveToDisk => true
  | _, _ => false
  end.

Definition stage_of (c : call) : option stage :=
  match c with
  | AutoModelForCausalLM_from_pretrained _ => Some PretrainedModelLoader
  | AutoTokenizer_from_pretrained _ | set_pad_token_to_eos_token
  | Dataset_from_list _ | Dataset_map_tokenize_function
  | Dataset_set_format _ | Dataset_remove_columns _ => Some DatasetTokenizerUtilities
  | Trainer _ | trainer_train => Some GenericTrainer
  | model_eval | tokenizer_call _ | model_generate _ _ | tokenizer_decode =>
      Some TextGeneration
  | model_save_pretrained _ | tokenizer_save_pretrained _ => Some SaveToDisk
  | TrainingArguments _ | model_to _ | input_ids_to _
  | print_text _ | print_generated_text => None
  end.

(** The stages a sequence of calls goes through, each change of stage once. *)
Fixpoint stages_from (cur : option stage) (l : list call) : list stage :=
  match l with
  | [] => []
  | c :: r =>
      match stage_of c, cur with
      | None, _ => stages_from cur r
      | Some s, Some s' =>
          if stage_eqb s s' then stages_from cur r
          else s :: stages_from (Some s) r
      | Some s, None => s :: stages_from (Some s) r
      end
  end.
Definition stages (l : list call) : list stage := stages_from None l.

(** The position of the first call that satisfies [p]. *)
Fixpoint position (p : call -> bool) (l : list call) : option nat :=
  match l with
  | [] => None
  | c :: r => if p c then Some 0 else option_map S (position p r)
  end.

Definition is_model_loader (c : call) : bool :=
  match c with AutoModelForCausalLM_from_pretrained _ => true | _ => false end.
Definition is_dataset_utility (c : call) : bool :=
  match c with
  | Dataset_from_list _ | Dataset_map_tokenize_function
  | Dataset_set_format _ | Dataset_remove_columns _ => true
  | _ => false
  end.

(** The devices the script moves the model and the inference input to. *)
Definition device_moves (l : list call) : list string :=
  flat_map (fun c => match c with
                     | model_to d | input_ids_to d => [d]
                     | _ => []
                     end) l.

(** What the script passes to [model.generate]: the calls between the
    tokenizer call on the prompt and [model.generate]. *)
Fixpoint generate_input (seen : option (list call)) (l : list call)
  : option (list call) :=
  match l with
  | [] => None
  | c :: r =>
      match c, seen with
      | tokenizer_call _, _ => generate_input (Some []) r
      | model_generate _ _, Some acc => Some acc
      | _, Some acc => generate_input (Some (acc ++ [c])) r
      | _, None => generate_input None r
      end
  end.

End CpuTrainer.

(** ** The notebook's shell cells *)

Module Notebook.
Import Text.

(** Section 2, [Install Dependencies with Explicit Versions]: the code cell. *)
Definition install_cell : list string :=
  [ "# Install PyTorch (CPU version). Get the latest stable CPU wheel URL from pytorch.org if needed.";
    "pip install torch torchvision torchaudio --index-url https://download.pytorch.org/whl/cpu";
    EmptyString;
    "# Install transformers from Hugging Face GitHub development branch (for latest features and fixes)";
    "pip install --no-cache-dir --force-reinstall git+https://github.com/huggingface/transformers.git";
    EmptyString;
    "# Install datasets library (latest stable version)";
    "pip install datasets" ].

(** The requirements among the arguments of [pip install]: an argument that
    starts with [--] is an option, and [--index-url] takes the next
    argument as its value. *)
Fixpoint pip_requirements (args : list string) : list string :=
  match args with
  | [] => []
  | a :: r =>
      if String.eqb a "--index-url"
      then match r with
           | [] => []
           | _ :: r' => pip_requirements r'
           end
      else if String.prefix "--" a then pip_requirements r
      else a :: pip_requirements r
  end.

(** The requirements a line of the cell installs; a comment or an empty
    line installs none. *)
Definition installs (line : string) : list string :=
  match shell_split line with
  | "pip" :: "install" :: args => pip_requirements args
  | _ => []
  end.

(** A requirement is pinned when it names its version: [name==version], or
    a repository with a revision, [git+url.git@revision]. *)
Definition pinned (requirement : string) : bool :=
  contains "==" requirement || contains ".git@" requirement.

Definition install_commands : list string :=
  filter (fun line => match installs line with [] => false | _ => true end)
         install_cell.

(** Section 4, [Execution Instructions]: the commands of steps 2 to 4. *)
Definition run_instructions : list string :=
  [ "conda activate cpu_gpt2_env";
    "export CUDA_VISIBLE_DEVICES=" +++ dq +++ dq;
    "export PYTORCH_CUDA_ALLOC_CONF=garbage_collection_threshold:0.8,max_split_size_mb:512";
    "python cpu_trainer.py" ].

(** The variable and the value of [export NAME=value]. *)
Definition export_of (line : string) : option (string * string) :=
  match shell_split line with
  | [ "export"; assignment ] =>
      match before "="%char assignment, after "="%char assignment with
      | Some name, Some value => Some (name, value)
      | _, _ => None
      end
  | _ => None
  end.

Fixpoint exports (lines : list string) : list (string * string) :=
  match lines with
  | [] => []
  | l :: r =>
      match export_of l with
      | Some nv => nv :: exports r
      | None => exports r
      end
  end.

(** An environment variable that configures the accelerator. *)
Definition accelerator_variable (name : string) : bool := contains "CUDA" name.

End Notebook.

(** ** The task runner *)

Module Makefile.
Import Text.

Definition recipe_line (command : string) : string := tab +++ command.

(** The text of [Makefile], line by line. *)
Definition makefile : list string :=
  [ ".DEFAULT_GOAL := all";
    EmptyString;
    ".PHONY: all";
    "all: ## Show the available make targets.";
    recipe_line ("@echo " +++ dq +++ "Usage: make <target>" +++ dq);
    recipe_line ("@echo " +++ dq +++ dq);
    recipe_line ("@echo " +++ dq +++ "Targets:" +++ dq);
    recipe_line ("@fgrep " +++ dq +++ "##" +++ dq +++ " Makefile | fgrep -v fgrep");
    EmptyString;
    ".PHONY: clean";
    "clean: ## Clean the temporary files.";
    recipe_line "rm -rf .pytest_cache";
    recipe_line "rm -rf .mypy_cache";
    recipe_line "rm -rf .coverage";
    recipe_line "rm -rf .ruff_cache";
    recipe_line "rm -rf megalinter-reports";
    EmptyString;
    ".PHONY: format";
    "format:  ## Format the code.";
    recipe_line "poetry run black .";
    recipe_line "poetry run ruff check . --fix";
    EmptyString;
    ".PHONY: lint";
    "lint:  ## Run all linters (black/ruff/pylint/mypy).";
    recipe_line "poetry run black --check .";
    recipe_line "poetry run ruff check .";
    recipe_line "make mypy";
    EmptyString;
    ".PHONY: test";
    "test:  ## Run the tests and check coverage.";
    recipe_line "poetry run pytest -n auto --cov=twenty_percent --cov-report term-missing --cov-fail-under=100";
    EmptyString;
    ".PHONY: mypy";
    "mypy:  ## Run mypy.";
    recipe_line "poetry run mypy twenty_percent";
    EmptyString;
    ".PHONY: install";
    "install:  ## Install the dependencies excluding dev.";
    recipe_line "poetry install --only main";
    EmptyString;
    ".PHONY: install-dev";
    "install-dev:  ## Install the dependencies including dev.";
    recipe_line "poetry install";
    EmptyString;
    ".PHONY: megalint";
    "megalint:  ## Run the mega-linter.";
    recipe_line "docker run --platform linux/amd64 --rm \";
    recipe_line (tab +++ "-v /var/run/docker.sock:/var/run/docker.sock:rw \");
    recipe_line (tab +++ "-v $(shell pwd):/tmp/lint:rw \");
    recipe_line (tab +++ "oxsecurity/megalinter:v7") ].

Definition is_recipe_line (line : string) : bool := String.prefix tab line.

(** The target of a rule line [target: ...]; a recipe line, a special target
    such as [.PHONY], a comment and an assignment [NAME := value] are not
    rule lines. *)
Definition rule_target (line : string) : option string :=
  if is_recipe_line line || String.prefix "." line || String.prefix "#" line
  then None
  else match before ":"%char line, after ":"%char line with
       | Some target, Some rest =>
           if String.prefix "=" rest then None else Some target
       | _, _ => None
       end.

Record rule : Type :=
  mkRule { target : string; rule_line : string; recipe : list string }.

(** The recipe lines that follow a rule line. *)
Fixpoint take_recipe (lines : list string) : list string :=
  match lines with
  | l :: r => if is_recipe_line l then l :: take_recipe r else []
  | [] => []
  end.

Fixpoint rules (lines : list string) : list rule :=
  match lines with
  | [] => []
  | l :: r =>
      match rule_target l with
      | Some t => mkRule t l (take_recipe r) :: rules r
      | None => rules r
      end
  end.

Definition targets (lines : list string) : list string :=
  map target (rules lines).

(** The lines that assign a variable. *)
Definition assignments (lines : list string) : list string :=
  filter (fun l => negb (is_recipe_line l) && contains "=" l) lines.

(** A recipe line that ends in a backslash goes on with the next line. *)
Fixpoint logical_lines (lines : list string) : list string :=
  match lines with
  | [] => []
  | l :: r =>
      match continued l, logical_lines r with
      | Some l', next :: rest => (l' +++ next) :: rest
      | _, rest => l :: rest
      end
  end.

(** The words of a recipe line as make reads it: split as [shell_split]
    does, but a function call [$(...)] of make stays one piece of its word,
    its blanks included. *)
Fixpoint make_split_aux (depth : nat) (dollar quoted started : bool)
         (cur : string) (s : string) : list string :=
  let flush := if started then [cur] else [] in
  match s with
  | EmptyString => flush
  | String a s' =>
      if Ascii.eqb a "034"%char && Nat.eqb depth 0
      then make_split_aux depth false (negb quoted) true cur s'
      else if negb quoted && Nat.eqb depth 0 && is_blank a
      then flush ++ make_split_aux 0 false false false EmptyString s'
      else
        let depth' := if Ascii.eqb a "("%char && dollar then S depth
                      else if Ascii.eqb a ")"%char then pred depth
                      else depth in
        make_split_aux depth' (Ascii.eqb a "$"%char) quoted true
                       (cur +++ String a EmptyString) s'
  end.
Definition make_split (s : string) : list string :=
  make_split_aux 0 false false false EmptyString s.

(** The commands of a recipe, each as the list of its words, without the
    prefix [@] that keeps make from echoing the command.  A call
    [$(shell text)] in a word stands for what [text] prints when make runs
    it, before the command itself is run. *)
Definition unprefixed (words : list string) : list string :=
  match words with
  | String "@"%char w :: r => w :: r
  | _ => words
  end.

Definition commands (r : rule) : list (list string) :=
  map (fun l => unprefixed (make_split l)) (logical_lines (recipe r)).

(** [s] without the text [p] it starts with. *)
Fixpoint strip_prefix (p s : string) : option string :=
  match p, s with
  | EmptyString, _ => Some s
  | String a p', String b s' =>
      if Ascii.eqb a b then strip_prefix p' s' else None
  | String _ _, EmptyString => None
  end.

(** The commands make runs to expand a word: the text of every
    [$(shell text)] in it. *)
Fixpoint shell_calls (w : string) : list string :=
  match w with
  | EmptyString => []
  | String _ w' =>
      match strip_prefix "$(shell " w with
      | Some rest =>
          match before ")"%char rest with
          | Some text => [text]
          | None => []
          end
      | None => []
      end ++ shell_calls w'
  end.

(** The commands of a pipeline [c1 | c2 | ...]. *)
Fixpoint pipeline_aux (cur : list string) (words : list string)
  : list (list string) :=
  match words with
  | [] => [cur]
  | w :: r =>
      if String.eqb w "|" then cur :: pipeline_aux [] r
      else pipeline_aux (cur ++ [w]) r
  end.
Definition pipeline (words : list string) : list (list string) :=
  pipeline_aux [] words.

(** The tool a command runs: the program, or what [poetry run] runs. *)
Definition tool (words : list string) : string :=
  match words with
  | "poetry" :: "run" :: t :: _ => t
  | t :: _ => t
  | [] => EmptyString
  end.

(** The tools a rule runs, in order: for each command, what make runs to
    expand its words, then the tools of its pipeline. *)
Definition tools (r : rule) : list string :=
  flat_map (fun c =>
              map (fun text => tool (shell_split text)) (flat_map shell_calls c)
              ++ map tool (pipeline c))
           (commands r).

(** The third-party developer tools: the package manager, the formatter, the
    linter, the type checker, the test runner and the container runtime of
    the mega-linter. *)
Definition developer_tools : list string :=
  [ "poetry"; "black"; "ruff"; "mypy"; "pytest"; "docker" ].

(** A command with an exit-code handling of its own: the prefix [-] that
    makes make ignore a failure, or a shell construct on the exit status. *)
Definition handles_exit_code (words : list string) : bool :=
  match words with
  | w :: _ => String.prefix "-" w
  | [] => false
  end
  || existsb (fun w => mem w ["||"; "&&"; ";"; "exit"; "$?"; "if"; "test"; "["; "!"])
             words.

(** *** What a recipe prints

    The two programs of the recipe of [all]: [echo args] prints its
    arguments, [fgrep pattern file] the lines of the file that contain the
    pattern, [fgrep -v pattern] the lines of its input that do not. *)
Definition run_command (file : string -> option (list string))
           (input : list string) (words : list string) : option (list string) :=
  match words with
  | "echo" :: args => Some [join " " args]
  | [ "fgrep"; "-v"; pattern ] =>
      Some (filter (fun l => negb (contains pattern l)) input)
  | [ "fgrep"; pattern; name ] =>
      option_map (filter (contains pattern)) (file name)
  | _ => None
  end.

Fixpoint run_pipeline (file : string -> option (list string))
         (input : list string) (cmds : list (list string)) : option (list string) :=
  match cmds with
  | [] => Some input
  | c :: r =>
      match run_command file input c with
      | Some out => run_pipeline file out r
      | None => None
      end
  end.

Fixpoint run_recipe (file : string -> option (list string))
         (cmds : list (list string)) : option (list string) :=
  match cmds with
  | [] => Some []
  | c :: r =>
      match run_pipeline file [] (pipeline c), run_recipe file r with
      | Some out, Some outs => Some (out ++ outs)
      | _, _ => None
      end
  end.

(** The working directory of [make]: it holds the file [Makefile]. *)
Definition files (name : string) : option (list string) :=
  if String.eqb name "Makefile" then Some makefile else None.

Definition find_rule (t : string) : option rule :=
  find (fun r => String.eqb (target r) t) (rules makefile).

(** What [make t] prints when its recipe only uses the programs above. *)
Definition make_prints (t : string) : option (list string) :=
  match find_rule t with
  | Some r => run_recipe files (commands r)
  | None => None
  end.

End Makefile.

(** ** Statements under test and sample inputs *)

Module Samples.
Import Py CpuTrainer.

(** An encoder to run the script's functions on: one id for each character,
    its code. *)
Definition character_codes (text : string) : list Z :=
  map (fun a => Z.of_nat (nat_of_ascii a)) (list_ascii_of_string text).

Definition eos_token_id : Z := 50256%Z.

Definition tensor (s : list nat) (xs : list Z) : pyval := PyTensor (mkTensor s xs).

(** Two features with tensors of one shape for each key. *)
Definition batch_of_tensors : list pyval :=
  [ PyDict [("input_ids", tensor [3] [464; 2068; 7586]%Z);
            ("attention_mask", tensor [3] [1; 1; 1]%Z)];
    PyDict [("input_ids", tensor [3] [18045; 625; 50256]%Z);
            ("attention_mask", tensor [3] [1; 1; 0]%Z)] ].

(** Two features whose [input_ids] are lists, not tensors (a dataset that
    was not put in the torch format). *)
Definition batch_of_lists : list pyval :=
  [ PyDict [("input_ids", PyList [PyInt 464; PyInt 2068]);
            ("attention_mask", tensor [2] [1; 1]%Z)];
    PyDict [("input_ids", PyList [PyInt 18045; PyInt 625]);
            ("attention_mask", tensor [2] [1; 1]%Z)] ].

(** Two features whose [input_ids] have different lengths (a dataset
    tokenized without padding). *)
Definition batch_of_ragged_tensors : list pyval :=
  [ PyDict [("input_ids", tensor [2] [464; 2068]%Z);
            ("attention_mask", tensor [2] [1; 1]%Z)];
    PyDict [("input_ids", tensor [3] [18045; 625; 262]%Z);
            ("attention_mask", tensor [3] [1; 1; 1]%Z)] ].

End Samples.

Module Stated.
Import Py CpuTrainer.


(** The key is gathered from every feature, and stacking its elements
    succeeds or fails with a [TypeError]. *)
Definition stacks_or_type_error (features : list pyval) (key : string) : bool :=
  match elements_of features key with
  | inr elements =>
      match Torch.stack elements with
      | inr _ => true
      | inl e => is_TypeError e
      end
  | inl _ => false
  end.

(** The order of the stages as the pipeline is described: loader, dataset
    and tokenizer utilities, trainer, generation, save. *)
Definition described_stages : list stage :=
  [ PretrainedModelLoader; DatasetTokenizerUtilities; GenericTrainer;
    TextGeneration; SaveToDisk ].

(** Every requirement of every install command is pinned. *)
Definition every_install_pinned : bool :=
  forallb (fun line => forallb Notebook.pinned (Notebook.installs line))
          Notebook.install_commands.

(** The only accelerator variable the instructions set is
    [CUDA_VISIBLE_DEVICES], to the empty text. *)
Definition only_hides_accelerators (env : list (string * string)) : bool :=
  forallb (fun nv =>
             negb (Notebook.accelerator_variable (fst nv))
             || (String.eqb (fst nv) "CUDA_VISIBLE_DEVICES"
                 && String.eqb (snd nv) EmptyString))
          env.

(** Every tool of every target is a third-party developer tool. *)
Definition targets_run_developer_tools_only : bool :=
  forallb (fun r => forallb (fun t => Text.mem t Makefile.developer_tools)
                            (Makefile.tools r))
          (Makefile.rules Makefile.makefile).

End Stated.

(** ** Further definitions for the properties of the code *)

Module Further.
Import Py CpuTrainer.

(** The elements of the key are gathered from every feature and stack. *)
Definition stacks (features : list pyval) (key : string) : bool :=
  match elements_of features key with
  | inr elements =>
      match Torch.stack elements with
      | inr _ => true
      | inl _ => false
      end
  | inl _ => false
  end.

(** The stacked elements of the keys that stack, in the order of the keys. *)
Fixpoint stacked_columns (features : list pyval) (ks : list string) : dict :=
  match ks with
  | [] => []
  | k :: r =>
      match elements_of features k with
      | inr elements =>
          match Torch.stack elements with
          | inr t => (k, PyTensor t) :: stacked_columns features r
          | inl _ => stacked_columns features r
          end
      | inl _ => stacked_columns features r
      end
  end.

(** [first] is not a dict. *)
Definition not_a_dict (first : pyval) : bool :=
  match first with
  | PyDict _ => false
  | _ => true
  end.

(** The number of positions an attention mask marks as tokens. *)
Definition mask_count (attention_mask : list Z) : nat :=
  length (filter (Z.eqb 1) attention_mask).

(** [tokenize_function] over the rows of a dataset, as [dataset.map] applies
    it; [tokenized_dataset] is this for [mini_data]. *)
Definition tokenize_rows (encode : string -> list Z) (pad_token_id : Z)
           (rows : list row) : exn + list pyval :=
  comprehension
    (fun example =>
       match tokenize_function encode pad_token_id example with
       | inl e => inl e
       | inr d => inr (PyDict d)
       end)
    rows.

(** A feature as [tokenize_function] makes it. *)
Definition tokenized_feature (input_ids attention_mask : list Z) : pyval :=
  PyDict [ ("input_ids", PyTensor (mkTensor [32] input_ids));
           ("attention_mask", PyTensor (mkTensor [32] attention_mask));
           ("labels", PyTensor (mkTensor [32] input_ids)) ].

Definition feature_of (p : list Z * list Z) : pyval :=
  tokenized_feature (fst p) (snd p).



(** The targets the lines [.PHONY: ...] declare. *)
Definition phony_targets (lines : list string) : list string :=
  flat_map (fun l =>
              if String.prefix ".PHONY:" l
              then match Text.after ":"%char l with
                   | Some names => Text.shell_split names
                   | None => []
                   end
              else [])
           lines.

(** The goal of [make] without arguments: the last value assigned to
    [.DEFAULT_GOAL], or else the first target. *)
Definition default_goal (lines : list string) : option string :=
  match rev (flat_map (fun l =>
                         match Text.shell_split l with
                         | [ ".DEFAULT_GOAL"; ":="; goal ] => [goal]
                         | _ => []
                         end)
                      lines) with
  | goal :: _ => Some goal
  | [] => hd_error (Makefile.targets lines)
  end.

(** The commands a recipe runs in the end: a command [make t] runs the recipe
    of the target [t] of the same file. *)
Fixpoint expanded (fuel : nat) (rs : list Makefile.rule)
         (cmds : list (list string)) : list (list string) :=
  match fuel with
  | O => cmds
  | S n =>
      flat_map (fun c =>
                  match c with
                  | [ "make"; t ] =>
                      match find (fun r => String.eqb (Makefile.target r) t) rs with
                      | Some r => expanded n rs (Makefile.commands r)
                      | None => [c]
                      end
                  | _ => [c]
                  end)
               cmds
  end.

Definition runs (t : string) : list (list string) :=
  match Makefile.find_rule t with
  | Some r =>
      expanded (length (Makefile.rules Makefile.makefile))
               (Makefile.rules Makefile.makefile) (Makefile.commands r)
  | None => []
  end.

End Further.

(** ** The stack collation, read from the features directly *)

Module Reference.
Import Py.

(** The tensors the features hold for a key, feature by feature; [None] when
    a feature lacks the key or holds something else than a tensor. *)
Fixpoint tensors_across (ds : list dict) (k : string) : option (list Tensor) :=
  match ds with
  | [] => Some []
  | d :: r =>
      match dict_get d k, tensors_across r k with
      | Some (PyTensor t), Some ts => Some (t :: ts)
      | _, _ => None
      end
  end.

Fixpoint collate_columns (ds : list dict) (ks : list string) : option dict :=
  match ks with
  | [] => Some []
  | k :: r =>
      match tensors_across ds k with
      | Some ts =>
          match Torch.stack (map PyTensor ts), collate_columns ds r with
          | inr t, Some b => Some ((k, PyTensor t) :: b)
          | _, _ => None
          end
      | None => None
      end
  end.

(** The default stack-based collation of a list of dict-shaped features: a
    dict with the keys of the features (those of the first one), each mapped
    to [torch.stack] of that key's tensors across the features. *)
Definition default_stack_collation (ds : list dict) : option dict :=
  match ds with
  | d :: _ => collate_columns ds (keys d)
  | [] => None
  end.

End Reference.

(** ** Properties of the monad *)

Section IoFacts.
Import Py.
Context {A B : Type}.

Lemma outcome_bind (m : io A) (f : A -> io B) :
  outcome (bind m f)
  = match outcome m with
    | inl e => inl e
    | inr a => outcome (f a)
    end.
Proof.
  destruct m as [out [e | a]]; simpl; [reflexivity |].
  destruct (f a); reflexivity.
Qed.


End IoFacts.

Lemma bind_assoc {A B C : Type} (m : Py.io A) (f : A -> Py.io B) (g : B -> Py.io C) :
  Py.bind (Py.bind m f) g = Py.bind m (fun a => Py.bind (f a) g).
Proof.
  destruct m as [out [e | a]]; simpl; [reflexivity |].
  destruct (f a) as [out' [e | b]]; simpl; [reflexivity |].
  destruct (g b); simpl. now rewrite app_assoc.
Qed.

Lemma bind_ext {A B : Type} (m : Py.io A) (f g : A -> Py.io B) :
  (forall a, f a = g a) -> Py.bind m f = Py.bind m g.
Proof.
  intros H. destruct m as [out [e | a]]; simpl; [reflexivity |].
  now rewrite H.
Qed.

Lemma for_each_app {A S : Type} (l1 l2 : list A) (body : S -> A -> Py.io S) (acc : S) :
  Py.for_each (l1 ++ l2) body acc
  = Py.bind (Py.for_each l1 body acc) (Py.for_each l2 body).
Proof.
  revert acc; induction l1 as [| x l1 IH]; intros acc; simpl.
  - unfold Py.ret, Py.bind. destruct (Py.for_each l2 body acc); reflexivity.
  - rewrite bind_assoc. apply bind_ext; intros a; apply IH.
Qed.

(** ** The collator *)

Section CollatorFacts.
Import Py CpuTrainer Stated.

Lemma dict_get_in_keys (d : dict) (k : string) :
  In k (keys d) -> exists v, dict_get d k = Some v.
Proof.
  induction d as [| [k' v'] d IH]; simpl; [tauto |].
  intros [-> | Hin].
  - rewrite String.eqb_refl. eauto.
  - destruct (String.eqb k' k); eauto.
Qed.


Lemma dict_set_fresh (d : dict) (k : string) (v : pyval) :
  ~ In k (keys d) -> dict_set d k v = d ++ [(k, v)].
Proof.
  induction d as [| [k' v'] d IH]; simpl; [reflexivity |].
  intros Hnot. destruct (String.eqb_spec k' k) as [-> | Hne]; [tauto |].
  rewrite IH by tauto. reflexivity.
Qed.

Lemma keys_dict_set (d : dict) (k k0 : string) (v : pyval) :
  In k0 (keys (dict_set d k v)) -> k0 = k \/ In k0 (keys d).
Proof.
  induction d as [| [k' v'] d IH]; simpl.
  - intuition.
  - destruct (String.eqb_spec k' k) as [-> | Hne]; simpl; intuition.
Qed.

Lemma outcome_describe_first (e0 : pyval) : outcome (describe_first e0) = inr tt.
Proof. destruct e0 as [ | | | | [| x l] | |]; reflexivity. Qed.

Variable features : list pyval.
Variable first : pyval.

Lemma outcome_gather_elements (key : string) :
  outcome (gather_elements features first key)
  = match getitem first key with
    | inl e => inl e
    | inr _ => elements_of features key
    end.
Proof.
  unfold gather_elements.
  rewrite outcome_bind; cbn [print outcome snd].
  rewrite outcome_bind. unfold lift at 1; cbn [outcome snd].
  destruct (getitem first key) as [e | v0]; [reflexivity |].
  rewrite outcome_bind; cbn [print outcome snd].
  rewrite outcome_bind. unfold lift at 1; cbn [outcome snd].
  destruct (elements_of features key) as [e | elements]; [reflexivity |].
  rewrite outcome_bind; cbn [print outcome snd].
  rewrite outcome_bind.
  destruct elements as [| e0 r]; [reflexivity |].
  rewrite outcome_describe_first. reflexivity.
Qed.

(** The [try] statement, case by case. *)
Lemma stack_into_cases (batch : dict) (key : string) (elements : list pyval) :
  stack_into batch key elements
  = match Torch.stack elements with
    | inr t => ([stacked_text t], inr (dict_set batch key (PyTensor t)))
    | inl e => if is_TypeError e then ([type_error_text key e], inr batch)
               else ([], inl e)
    end.
Proof.
  unfold stack_into, lift, try_except_TypeError, bind, print, ret.
  destruct (Torch.stack elements) as [e | t]; [| reflexivity].
  destruct (is_TypeError e); reflexivity.
Qed.

Lemma outcome_collate_key (batch : dict) (key : string) :
  outcome (collate_key features first batch key)
  = match getitem first key with
    | inl e => inl e
    | inr _ =>
        match elements_of features key with
        | inl e => inl e
        | inr elements =>
            match Torch.stack elements with
            | inr t => inr (dict_set batch key (PyTensor t))
            | inl e => if is_TypeError e then inr batch else inl e
            end
        end
    end.
Proof.
  unfold collate_key. rewrite outcome_bind, outcome_gather_elements.
  destruct (getitem first key) as [e | v0]; [reflexivity |].
  destruct (elements_of features key) as [e | elements]; [reflexivity |].
  rewrite stack_into_cases.
  destruct (Torch.stack elements) as [e | t]; [| reflexivity].
  destruct (is_TypeError e); reflexivity.
Qed.


Lemma outcome_for_each_cons (k : string) (ks : list string) (acc : dict) :
  outcome (for_each (k :: ks) (collate_key features first) acc)
  = match outcome (collate_key features first acc k) with
    | inl e => inl e
    | inr acc' => outcome (for_each ks (collate_key features first) acc')
    end.
Proof. cbn [for_each]. apply outcome_bind. Qed.

Lemma stacks_or_type_error_cases (key : string) :
  stacks_or_type_error features key = true ->
  exists elements,
    elements_of features key = inr elements
    /\ ((exists t, Torch.stack elements = inr t)
        \/ (exists e, Torch.stack elements = inl e /\ is_TypeError e = true)).
Proof.
  unfold stacks_or_type_error.
  destruct (elements_of features key) as [e | elements]; [discriminate |].
  intros H. exists elements. split; [reflexivity |].
  destruct (Torch.stack elements) as [e | t]; eauto.
Qed.

(** While stacking succeeds or fails with a [TypeError], the loop goes on:
    it ends with a batch, and a key gets into the batch only when its
    elements were stacked. *)
Lemma for_each_goes_on (ks : list string) :
  forall acc : dict,
    (forall k, In k ks -> exists v, getitem first k = inr v) ->
    forallb (stacks_or_type_error features) ks = true ->
    exists acc',
      outcome (for_each ks (collate_key features first) acc) = inr acc'
      /\ forall k0, In k0 (keys acc') ->
                    In k0 (keys acc)
                    \/ exists elements t,
                        elements_of features k0 = inr elements
                        /\ Torch.stack elements = inr t.
Proof.
  induction ks as [| k ks IH]; intros acc Hfirst Hok.
  - exists acc. split; [reflexivity | auto].
  - cbn [forallb] in Hok. apply andb_true_iff in Hok as [Hk Hks].
    destruct (Hfirst k (or_introl eq_refl)) as [v0 Hv0].
    destruct (stacks_or_type_error_cases k Hk) as (elements & Hel & Hstack).
    rewrite outcome_for_each_cons, outcome_collate_key, Hv0, Hel.
    destruct Hstack as [[t Ht] | (e & He & Hty)].
    + rewrite Ht.
      destruct (IH (dict_set acc k (PyTensor t))) as (acc' & Hout & Hkeys);
        [intros; apply Hfirst; now right | assumption |].
      exists acc'. split; [assumption |].
      intros k0 Hin. destruct (Hkeys k0 Hin) as [Hset | Hst]; [| now right].
      apply keys_dict_set in Hset as [-> | Hacc]; [right; eauto | now left].
    + rewrite He, Hty.
      destruct (IH acc) as (acc' & Hout & Hkeys);
        [intros; apply Hfirst; now right | assumption |].
      exists acc'. split; assumption.
Qed.

(** When every key stacks, the loop appends the stacked columns. *)
Lemma for_each_stack_columns (ks : list string) :
  forall (acc b : dict),
    stack_columns features ks = Some b ->
    (forall k, In k ks -> exists v, getitem first k = inr v) ->
    NoDup ks ->
    (forall k, In k ks -> ~ In k (keys acc)) ->
    outcome (for_each ks (collate_key features first) acc) = inr (acc ++ b).
Proof.
  induction ks as [| k ks IH]; intros acc b Hcols Hfirst Hnodup Hfresh.
  - injection Hcols as <-. now rewrite app_nil_r.
  - cbn [stack_columns] in Hcols.
    destruct (elements_of features k) as [e | elements] eqn:Hel; [discriminate |].
    destruct (Torch.stack elements) as [e | t] eqn:Hst; [discriminate |].
    destruct (stack_columns features ks) as [b' |] eqn:Hrest; [| discriminate].
    injection Hcols as <-.
    destruct (Hfirst k (or_introl eq_refl)) as [v0 Hv0].
    rewrite outcome_for_each_cons, outcome_collate_key, Hv0, Hel, Hst.
    rewrite dict_set_fresh by (apply Hfresh; now left).
    inversion Hnodup as [| ? ? Hnotin Hnodup']; subst.
    rewrite (IH (acc ++ [(k, PyTensor t)]) b' eq_refl).
    + now rewrite <- app_assoc.
    + intros; apply Hfirst; now right.
    + assumption.
    + intros k' Hin Hkeys. unfold keys in Hkeys. rewrite map_app in Hkeys.
      apply in_app_or in Hkeys as [Hacc | [<- | []]].
      * apply (Hfresh k'); [now right | exact Hacc].
      * contradiction.
Qed.

Lemma stack_columns_keys (ks : list string) :
  forall b, stack_columns features ks = Some b -> keys b = ks.
Proof.
  induction ks as [| k ks IH]; intros b Hcols.
  - injection Hcols as <-. reflexivity.
  - cbn [stack_columns] in Hcols.
    destruct (elements_of features k) as [e | elements]; [discriminate |].
    destruct (Torch.stack elements) as [e | t]; [discriminate |].
    destruct (stack_columns features ks) as [b' |]; [| discriminate].
    injection Hcols as <-. cbn. f_equal. now apply IH.
Qed.

Lemma stack_columns_lookup (ks : list string) :
  forall b k,
    stack_columns features ks = Some b -> In k ks ->
    exists elements t,
      elements_of features k = inr elements
      /\ Torch.stack elements = inr t
      /\ dict_get b k = Some (PyTensor t).
Proof.
  induction ks as [| k0 ks IH]; intros b k Hcols Hin; [destruct Hin |].
  cbn [stack_columns] in Hcols.
  destruct (elements_of features k0) as [e | elements] eqn:Hel; [discriminate |].
  destruct (Torch.stack elements) as [e | t] eqn:Hst; [discriminate |].
  destruct (stack_columns features ks) as [b' |] eqn:Hrest; [| discriminate].
  injection Hcols as <-. cbn [dict_get].
  destruct (String.eqb_spec k0 k) as [<- | Hne].
  - exists elements, t. auto.
  - destruct Hin as [-> | Hin]; [contradiction |].
    exact (IH b' k eq_refl Hin).
Qed.

End CollatorFacts.

(** The collator on a batch whose first feature is a dict: what the loop
    yields, between the opening and the closing texts. *)
Lemma collator_on_dict (d : Py.dict) (rest : list Py.pyval) :
  let features := Py.PyDict d :: rest in
  let loop := Py.for_each (Py.keys d)
                (CpuTrainer.collate_key features (Py.PyDict d)) [] in
  Py.outcome (CpuTrainer.custom_data_collator features) = Py.outcome loop
  /\ Py.printed (CpuTrainer.custom_data_collator features)
     = [ Text.nl +++ "--- Inside data collator ---";
         "Type of 'features': " +++ Py.class_text (Py.PyList features);
         "Length of 'features': " +++ Text.of_nat (length features);
         "Type of 'features[0]': " +++ Py.class_text (Py.PyDict d) ]
         ++ Py.printed loop
         ++ match Py.outcome loop with
            | inr _ => ["--- End data collator ---" +++ Text.nl]
            | inl _ => []
            end.
Proof.
  intros features loop.
  unfold CpuTrainer.custom_data_collator; subst features; cbv iota.
  fold loop. destruct loop as [out [e | b]].
  - split; [reflexivity |].
    unfold Py.bind, Py.print, Py.ret, Py.printed, Py.outcome; cbn [fst snd app].
    now rewrite app_nil_r.
  - split; [reflexivity |].
    unfold Py.bind, Py.print, Py.ret, Py.printed, Py.outcome; cbn [fst snd app].
    reflexivity.
Qed.

Lemma getitem_first (d : Py.dict) (k : string) :
  In k (Py.keys d) -> exists v, Py.getitem (Py.PyDict d) k = inr v.
Proof.
  intros Hin. destruct (dict_get_in_keys d k Hin) as [v Hv].
  exists v. cbn [Py.getitem]. now rewrite Hv.
Qed.

(** Stackable values give a stack collation. *)
Lemma stack_columns_defined (features : list Py.pyval) (ks : list string) :
  (forall k, In k ks ->
             exists elements t,
               CpuTrainer.elements_of features k = inr elements
               /\ Torch.stack elements = inr t) ->
  exists b, CpuTrainer.stack_columns features ks = Some b.
Proof.
  induction ks as [| k ks IH]; intros H; [now exists [] |].
  destruct (H k (or_introl eq_refl)) as (elements & t & Hel & Hst).
  destruct IH as [b Hb]; [intros; apply H; now right |].
  exists ((k, Py.PyTensor t) :: b).
  cbn [CpuTrainer.stack_columns]. now rewrite Hel, Hst, Hb.
Qed.

(** The collator on the sample batches. *)
Example collator_on_lists :
  Py.outcome (CpuTrainer.custom_data_collator Samples.batch_of_lists)
  = inr [ ("attention_mask", Samples.tensor [2; 2] [1; 1; 1; 1]%Z) ].
Proof. reflexivity. Qed.

Example collator_on_ragged_tensors :
  Py.outcome (CpuTrainer.custom_data_collator Samples.batch_of_ragged_tensors)
  = inl (Py.mkExn Py.RuntimeError
           "stack expects each tensor to be equal size, but got [2] at entry 0 and [3] at entry 1").
Proof. reflexivity. Qed.

Example collator_on_non_dict :
  CpuTrainer.custom_data_collator [Py.PyInt 7]
  = ( [ Text.nl +++ "--- Inside data collator ---";
        "Type of 'features': <class 'list'>";
        "Length of 'features': 1";
        "Type of 'features[0]': <class 'int'>";
        "  'features[0]' is NOT a dictionary!";
        "--- End data collator ---" +++ Text.nl ],
      inr [] ).
Proof. reflexivity. Qed.

(** C10: on an empty list of features the collator raises nothing and returns
    the empty dict, after printing its opening and closing texts only. *)
Theorem collator_empty_features :
  CpuTrainer.custom_data_collator []
  = ( [ Text.nl +++ "--- Inside data collator ---";
        "Type of 'features': <class 'list'>";
        "--- End data collator ---" +++ Text.nl ],
      inr [] ).
Proof. reflexivity. Qed.




(** ** The tokenization of an example *)

Section TokenizeFacts.
Import Py CpuTrainer.
Variable encode : string -> list Z.
Variable pad_token_id : Z.

Lemma pad_right_length (max_length : nat) (fill : Z) (ids : list Z) :
  length ids <= max_length ->
  length (Tokenizer.pad_right max_length fill ids) = max_length.
Proof.
  intros H. unfold Tokenizer.pad_right.
  rewrite length_app, repeat_length. lia.
Qed.

(** What [tokenize_function] returns for an example with a text. *)
Lemma tokenize_function_on_text (example : row) (text : string) :
  row_get example "text" = inr text ->
  let ids := firstn 32 (encode text) in
  tokenize_function encode pad_token_id example
  = inr [ ("input_ids",
           PyTensor (mkTensor [32] (Tokenizer.pad_right 32 pad_token_id ids)));
          ("attention_mask",
           PyTensor (mkTensor [32]
                       (Tokenizer.pad_right 32 0%Z (map (fun _ => 1%Z) ids))));
          ("labels",
           PyTensor (mkTensor [32] (Tokenizer.pad_right 32 pad_token_id ids))) ].
Proof.
  intros Htext ids. unfold tokenize_function. rewrite Htext.
  unfold Tokenizer.call. fold ids.
  cbn [Tokenizer.enc_get Tokenizer.enc_set String.eqb Ascii.eqb Bool.eqb map fst snd].
  unfold Torch.clone, Torch.squeeze0. cbn [shape data].
  rewrite !pad_right_length;
    [reflexivity | | ]; rewrite ?length_map; apply firstn_le_length.
Qed.
End TokenizeFacts.

(** C9: whenever [tokenize_function] returns, the field [labels] is the same
    tensor, element by element, as the field [input_ids]. *)
Theorem labels_copy_input_ids
        (encode : string -> list Z) (pad_token_id : Z)
        (example : CpuTrainer.row) (fields : Py.dict) :
  CpuTrainer.tokenize_function encode pad_token_id example = inr fields ->
  exists t,
    Py.dict_get fields "input_ids" = Some (Py.PyTensor t)
    /\ Py.dict_get fields "labels" = Some (Py.PyTensor t).
Proof.
  intros H.
  destruct (CpuTrainer.row_get example "text") as [e | text] eqn:Htext.
  - unfold CpuTrainer.tokenize_function in H. rewrite Htext in H. discriminate.
  - rewrite (tokenize_function_on_text encode pad_token_id example text Htext) in H.
    injection H as <-. eexists. split; reflexivity.
Qed.

Lemma labels_copy_input_ids_witness :
  exists fields,
    CpuTrainer.tokenize_function Samples.character_codes Samples.eos_token_id
      [("text", "jumps over the lazy")] = inr fields
    /\ exists t,
        Py.dict_get fields "input_ids" = Some (Py.PyTensor t)
        /\ Py.dict_get fields "labels" = Some (Py.PyTensor t).
Proof.
  eexists. split; [reflexivity |].
  apply (labels_copy_input_ids Samples.character_codes Samples.eos_token_id
           [("text", "jumps over the lazy")]).
  reflexivity.
Defined.

(** The dataset of the script, tokenized: four features. *)
Lemma tokenized_dataset_features (encode : string -> list Z) (pad_token_id : Z) :
  exists f1 f2 f3 f4,
    CpuTrainer.tokenized_dataset encode pad_token_id = inr [f1; f2; f3; f4].
Proof.
  unfold CpuTrainer.tokenized_dataset, CpuTrainer.mini_data.
  cbn [Py.comprehension].
  repeat (erewrite tokenize_function_on_text by reflexivity).
  do 4 eexists. reflexivity.
Qed.

(** A batch of two tokenized examples, as the trainer makes them
    ([per_device_train_batch_size=2]), is collated into tensors of shape
    [2, 32]. *)
Lemma collator_on_tokenized_pair
      (encode : string -> list Z) (pad_token_id : Z)
      (example1 example2 : CpuTrainer.row) (f1 f2 : Py.dict) :
  CpuTrainer.tokenize_function encode pad_token_id example1 = inr f1 ->
  CpuTrainer.tokenize_function encode pad_token_id example2 = inr f2 ->
  exists input_ids attention_mask labels,
    Py.outcome (CpuTrainer.custom_data_collator [Py.PyDict f1; Py.PyDict f2])
    = inr [ ("input_ids", Py.PyTensor (Py.mkTensor [2; 32] input_ids));
            ("attention_mask", Py.PyTensor (Py.mkTensor [2; 32] attention_mask));
            ("labels", Py.PyTensor (Py.mkTensor [2; 32] labels)) ].
Proof.
  intros H1 H2.
  destruct (CpuTrainer.row_get example1 "text") as [e | text1] eqn:Ht1;
    [unfold CpuTrainer.tokenize_function in H1; rewrite Ht1 in H1; discriminate |].
  destruct (CpuTrainer.row_get example2 "text") as [e | text2] eqn:Ht2;
    [unfold CpuTrainer.tokenize_function in H2; rewrite Ht2 in H2; discriminate |].
  rewrite (tokenize_function_on_text encode pad_token_id _ _ Ht1) in H1.
  rewrite (tokenize_function_on_text encode pad_token_id _ _ Ht2) in H2.
  injection H1 as <-. injection H2 as <-.
  do 3 eexists.
  match goal with
  | |- Py.outcome (CpuTrainer.custom_data_collator (Py.PyDict ?d :: ?rest)) = _ =>
      destruct (collator_on_dict d rest) as [-> _]
  end.
  cbn [Py.keys map fst].
  rewrite !outcome_for_each_cons, !outcome_collate_key.
  reflexivity.
Qed.

(** ** The notebook and the order of the script *)

(** C4: the install cell names five requirements and pins none of them: the
    statement that every install command installs a pinned version is false
    on the notebook. *)
Theorem install_commands_pin_nothing :
  flat_map Notebook.installs Notebook.install_commands
  = [ "torch"; "torchvision"; "torchaudio";
      "git+https://github.com/huggingface/transformers.git"; "datasets" ]
  /\ filter Notebook.pinned (flat_map Notebook.installs Notebook.install_commands) = []
  /\ Stated.every_install_pinned = false.
Proof. repeat split; reflexivity. Qed.

(** C6, as stated, fails: the script does not go through the stages in the
    described order; the first dataset utility is its third call, the model
    loader its eighth. *)
Lemma model_loaded_after_dataset_utilities :
  CpuTrainer.stages CpuTrainer.cpu_trainer <> Stated.described_stages
  /\ CpuTrainer.position CpuTrainer.is_dataset_utility CpuTrainer.cpu_trainer = Some 2
  /\ CpuTrainer.position CpuTrainer.is_model_loader CpuTrainer.cpu_trainer = Some 7.
Proof. split; [discriminate | split; reflexivity]. Qed.

(** C6, amended: the top-level calls go through the stages in the order
    dataset and tokenizer utilities, pretrained-model loader, generic trainer,
    text generation, save to disk. *)
Theorem script_stages_in_order :
  CpuTrainer.stages CpuTrainer.cpu_trainer
  = [ CpuTrainer.DatasetTokenizerUtilities; CpuTrainer.PretrainedModelLoader;
      CpuTrainer.GenericTrainer; CpuTrainer.TextGeneration; CpuTrainer.SaveToDisk ].
Proof. reflexivity. Qed.

(** C8, as stated, fails: the run instructions set a second accelerator
    variable, and not to the empty text. *)
Lemma instructions_set_allocator_variable :
  Stated.only_hides_accelerators (Notebook.exports Notebook.run_instructions) = false
  /\ In ("PYTORCH_CUDA_ALLOC_CONF",
         "garbage_collection_threshold:0.8,max_split_size_mb:512")
        (Notebook.exports Notebook.run_instructions).
Proof. split; [reflexivity | right; left; reflexivity]. Qed.

(** C8, amended: the training arguments set [device] to [cpu] and [no_cuda]
    to [True]; the model and the input of [model.generate] are moved to the
    CPU and nothing is moved elsewhere; the run instructions set
    [CUDA_VISIBLE_DEVICES] to the empty text, and the only other accelerator
    variable they set is [PYTORCH_CUDA_ALLOC_CONF]. *)
Theorem cpu_only_configuration :
  Py.dict_get CpuTrainer.training_args "device" = Some (Py.PyStr "cpu")
  /\ Py.dict_get CpuTrainer.training_args "no_cuda" = Some (Py.PyBool true)
  /\ In (CpuTrainer.model_to "cpu") CpuTrainer.cpu_trainer
  /\ CpuTrainer.generate_input None CpuTrainer.cpu_trainer
     = Some [CpuTrainer.input_ids_to "cpu"; CpuTrainer.input_ids_to "cpu"]
  /\ CpuTrainer.device_moves CpuTrainer.cpu_trainer = ["cpu"; "cpu"; "cpu"]
  /\ filter (fun nv => Notebook.accelerator_variable (fst nv))
            (Notebook.exports Notebook.run_instructions)
     = [ ("CUDA_VISIBLE_DEVICES", EmptyString);
         ("PYTORCH_CUDA_ALLOC_CONF",
          "garbage_collection_threshold:0.8,max_split_size_mb:512") ].
Proof.
  repeat split; try reflexivity.
  cbn. do 8 right. now left.
Qed.

(** ** The task runner *)

(** ** More on the collator *)

(** X1: when the first feature is not a dict, the collator looks at nothing
    else: it says so, raises nothing and returns the empty dict, whatever the
    other features are. *)
Theorem collator_first_not_a_dict (first : Py.pyval) (rest : list Py.pyval) :
  Further.not_a_dict first = true ->
  CpuTrainer.custom_data_collator (first :: rest)
  = ( [ Text.nl +++ "--- Inside data collator ---";
        "Type of 'features': <class 'list'>";
        "Length of 'features': " +++ Text.of_nat (S (length rest));
        "Type of 'features[0]': " +++ Py.class_text first;
        "  'features[0]' is NOT a dictionary!";
        "--- End data collator ---" +++ Text.nl ],
      inr [] ).
Proof.
  intros H. destruct first; try discriminate H; reflexivity.
Qed.

Lemma collator_first_not_a_dict_witness :
  CpuTrainer.custom_data_collator
    [ Py.PyList [Py.PyInt 464; Py.PyInt 2068];
      Py.PyDict [("input_ids", Samples.tensor [2] [1; 2]%Z)] ]
  = ( [ Text.nl +++ "--- Inside data collator ---";
        "Type of 'features': <class 'list'>";
        "Length of 'features': 2";
        "Type of 'features[0]': <class 'list'>";
        "  'features[0]' is NOT a dictionary!";
        "--- End data collator ---" +++ Text.nl ],
      inr [] ).
Proof.
  apply (collator_first_not_a_dict
           (Py.PyList [Py.PyInt 464; Py.PyInt 2068])
           [Py.PyDict [("input_ids", Samples.tensor [2] [1; 2]%Z)]]).
  reflexivity.
Defined.

(** X2: an error raised while the elements of a key are gathered from the
    features reaches the caller, a [TypeError] included: the [try] statement
    covers the stacking only. *)
Theorem collator_gather_error_propagates
        (d : Py.dict) (rest : list Py.pyval) (ks1 ks2 : list string)
        (k : string) (e : Py.exn) :
  let features := Py.PyDict d :: rest in
  Py.keys d = ks1 ++ k :: ks2 ->
  forallb (Stated.stacks_or_type_error features) ks1 = true ->
  CpuTrainer.elements_of features k = inl e ->
  Py.outcome (CpuTrainer.custom_data_collator features) = inl e.
Proof.
  intros features Hkeys Hbefore Hel. subst features.
  destruct (collator_on_dict d rest) as [-> _].
  assert (Hfirst : forall k', In k' (ks1 ++ k :: ks2) ->
                              exists v, Py.getitem (Py.PyDict d) k' = inr v)
    by (rewrite <- Hkeys; intros; now apply getitem_first).
  rewrite Hkeys, for_each_app, outcome_bind.
  destruct (for_each_goes_on (Py.PyDict d :: rest) (Py.PyDict d) ks1 [])
    as (acc1 & -> & _);
    [intros; apply Hfirst, in_or_app; now left | assumption |].
  destruct (Hfirst k) as [v0 Hv0]; [apply in_or_app; right; now left |].
  now rewrite outcome_for_each_cons, outcome_collate_key, Hv0, Hel.
Qed.

Lemma collator_gather_error_propagates_witness :
  Py.outcome
    (CpuTrainer.custom_data_collator
       [ Py.PyDict [("input_ids", Samples.tensor [2] [464; 2068]%Z)];
         Py.PyList [Py.PyInt 18045; Py.PyInt 625] ])
  = inl (Py.mkExn Py.TypeError "list indices must be integers or slices, not str")
  /\ Py.outcome
       (CpuTrainer.custom_data_collator
          [ Py.PyDict [("input_ids", Samples.tensor [2] [464; 2068]%Z);
                       ("labels", Samples.tensor [2] [464; 2068]%Z)];
            Py.PyDict [("input_ids", Samples.tensor [2] [18045; 625]%Z)] ])
     = inl (Py.mkExn Py.KeyError "'labels'").
Proof.
  split.
  - apply (collator_gather_error_propagates
             [("input_ids", Samples.tensor [2] [464; 2068]%Z)]
             [Py.PyList [Py.PyInt 18045; Py.PyInt 625]]
             [] [] "input_ids"); reflexivity.
  - apply (collator_gather_error_propagates
             [("input_ids", Samples.tensor [2] [464; 2068]%Z);
              ("labels", Samples.tensor [2] [464; 2068]%Z)]
             [Py.PyDict [("input_ids", Samples.tensor [2] [18045; 625]%Z)]]
             ["input_ids"] [] "labels"); reflexivity.
Defined.

Lemma comprehension_length {A B : Type} (f : A -> Py.exn + B) (l : list A) :
  forall ys, Py.comprehension f l = inr ys -> length ys = length l.
Proof.
  induction l as [| x l IH]; intros ys H; cbn [Py.comprehension] in H.
  - injection H as <-. reflexivity.
  - destruct (f x) as [e | y]; [discriminate |].
    destruct (Py.comprehension f l) as [e | ys']; [discriminate |].
    injection H as <-. cbn. f_equal. now apply IH.
Qed.

Lemma first_non_tensor_none (l : list Py.pyval) :
  forall i, Torch.first_non_tensor i l = None ->
            l = map Py.PyTensor (Torch.tensors_of l).
Proof.
  induction l as [| v l IH]; intros i H; [reflexivity |].
  destruct v; cbn [Torch.first_non_tensor] in H; try discriminate H.
  cbn [Torch.tensors_of map]. f_equal. exact (IH _ H).
Qed.

Lemma first_other_shape_none (s : list nat) (l : list Py.Tensor) :
  forall i, Torch.first_other_shape s i l = None ->
            Forall (fun t => Py.shape t = s) l.
Proof.
  induction l as [| t l IH]; intros i H; [constructor |].
  cbn [Torch.first_other_shape] in H. unfold Torch.shape_eqb in H.
  destruct (list_eq_dec Nat.eq_dec (Py.shape t) s) as [Heq | Hne]; [| discriminate].
  constructor; [exact Heq | exact (IH _ H)].
Qed.

(** What a stack that succeeds is made of: tensors of one shape, as many as
    the first dimension of the result, their elements one after the other. *)
Lemma stack_succeeds (elements : list Py.pyval) (t : Py.Tensor) :
  Torch.stack elements = inr t ->
  exists (ts : list Py.Tensor) (s : list nat),
    elements = map Py.PyTensor ts
    /\ Forall (fun t' => Py.shape t' = s) ts
    /\ ts <> []
    /\ t = Py.mkTensor (length elements :: s) (concat (map Py.data ts)).
Proof.
  unfold Torch.stack. intros H.
  destruct (Torch.first_non_tensor 0 elements) as [[i v] |] eqn:Hnon; [discriminate |].
  apply first_non_tensor_none in Hnon.
  destruct (Torch.tensors_of elements) as [| t0 rest] eqn:Hts; [discriminate |].
  destruct (Torch.first_other_shape (Py.shape t0) 1 rest) as [[i t'] |] eqn:Hshape;
    [discriminate |].
  apply first_other_shape_none in Hshape.
  injection H as <-.
  exists (t0 :: rest), (Py.shape t0). repeat split.
  - exact Hnon.
  - constructor; [reflexivity | exact Hshape].
  - discriminate.
  - rewrite Hnon, length_map. reflexivity.
Qed.

Lemma In_dict_set (d : Py.dict) (k k0 : string) (v v0 : Py.pyval) :
  In (k0, v0) (Py.dict_set d k v) -> (k0 = k /\ v0 = v) \/ In (k0, v0) d.
Proof.
  induction d as [| [k' v'] d IH]; cbn [Py.dict_set].
  - intros [H | []]. injection H as <- <-. now left.
  - destruct (String.eqb_spec k' k) as [-> | Hne]; cbn [In].
    + intros [H | H]; [injection H as <- <-; now left | right; now right].
    + intros [H | H]; [right; now left |].
      destruct (IH H) as [? | ?]; [now left | right; now right].
Qed.

Lemma dict_get_In (d : Py.dict) (k : string) (v : Py.pyval) :
  Py.dict_get d k = Some v -> In (k, v) d.
Proof.
  induction d as [| [k' v'] d IH]; cbn [Py.dict_get]; [discriminate |].
  destruct (String.eqb_spec k' k) as [-> | Hne].
  - intros H; injection H as <-. now left.
  - intros H. right. now apply IH.
Qed.

(** Whatever the loop returns, an entry that was not in the batch before is
    the stack of the elements of one of the keys. *)
Lemma for_each_sound (features : list Py.pyval) (first : Py.pyval) (ks : list string) :
  forall acc acc',
    Py.outcome (Py.for_each ks (CpuTrainer.collate_key features first) acc) = inr acc' ->
    forall k v,
      In (k, v) acc' ->
      In (k, v) acc
      \/ (In k ks
          /\ exists elements t,
              CpuTrainer.elements_of features k = inr elements
              /\ Torch.stack elements = inr t
              /\ v = Py.PyTensor t).
Proof.
  induction ks as [| k0 ks IH]; intros acc acc' Hout k v Hin.
  - injection Hout as <-. now left.
  - rewrite outcome_for_each_cons, outcome_collate_key in Hout.
    destruct (Py.getitem first k0) as [e | v0]; [discriminate |].
    destruct (CpuTrainer.elements_of features k0) as [e | elements] eqn:Hel;
      [discriminate |].
    destruct (Torch.stack elements) as [e | t] eqn:Hst.
    + destruct (Py.is_TypeError e); [| discriminate].
      destruct (IH _ _ Hout k v Hin) as [? | (? & ?)]; [now left |].
      right. split; [now right | assumption].
    + destruct (IH _ _ Hout k v Hin) as [Hset | (? & ?)].
      * apply In_dict_set in Hset as [[-> ->] | ?]; [| now left].
        right. split; [now left |]. now exists elements, t.
      * right. split; [now right | assumption].
Qed.

(** X3: every entry of the batch the collator returns is the stack of the
    elements of a key of the first feature, and its first dimension is the
    number of features. *)
Theorem collator_batch_entries
        (features : list Py.pyval) (batch : Py.dict) (k : string) (v : Py.pyval) :
  Py.outcome (CpuTrainer.custom_data_collator features) = inr batch ->
  Py.dict_get batch k = Some v ->
  exists d elements t s,
    hd_error features = Some (Py.PyDict d)
    /\ In k (Py.keys d)
    /\ CpuTrainer.elements_of features k = inr elements
    /\ Torch.stack elements = inr t
    /\ v = Py.PyTensor t
    /\ Py.shape t = length features :: s.
Proof.
  intros Hout Hget.
  destruct features as [| first rest].
  - injection Hout as <-. discriminate Hget.
  - destruct first as [ | | | | | | d];
      try (injection Hout as <-; discriminate Hget).
    destruct (collator_on_dict d rest) as [Heq _]. rewrite Heq in Hout.
    destruct (for_each_sound _ _ _ _ _ Hout k v (dict_get_In _ _ _ Hget))
      as [[] | (Hin & elements & t & Hel & Hst & ->)].
    destruct (stack_succeeds _ _ Hst) as (ts & s & _ & _ & _ & ->).
    exists d, elements, (Py.mkTensor (length elements :: s) (concat (map Py.data ts))), s.
    repeat split; try assumption.
    cbn [Py.shape]. f_equal.
    exact (comprehension_length _ _ _ Hel).
Qed.

Lemma collator_batch_entries_witness :
  exists d elements t s,
    hd_error Samples.batch_of_tensors = Some (Py.PyDict d)
    /\ In "attention_mask" (Py.keys d)
    /\ CpuTrainer.elements_of Samples.batch_of_tensors "attention_mask" = inr elements
    /\ Torch.stack elements = inr t
    /\ Samples.tensor [2; 3] [1; 1; 1; 1; 1; 0]%Z = Py.PyTensor t
    /\ Py.shape t = length Samples.batch_of_tensors :: s.
Proof.
  apply (collator_batch_entries Samples.batch_of_tensors
           [ ("input_ids", Samples.tensor [2; 3] [464; 2068; 7586; 18045; 625; 50256]%Z);
             ("attention_mask", Samples.tensor [2; 3] [1; 1; 1; 1; 1; 0]%Z) ]
           "attention_mask"); reflexivity.
Defined.

Lemma keys_stacked_columns (features : list Py.pyval) (ks : list string) :
  Py.keys (Further.stacked_columns features ks) = filter (Further.stacks features) ks.
Proof.
  induction ks as [| k ks IH]; [reflexivity |].
  cbn [Further.stacked_columns filter]. unfold Further.stacks at 1.
  destruct (CpuTrainer.elements_of features k) as [e | elements]; [exact IH |].
  destruct (Torch.stack elements) as [e | t]; [exact IH |].
  unfold Py.keys in *. cbn [map fst]. now rewrite IH.
Qed.

Lemma for_each_stacked_columns
      (features : list Py.pyval) (first : Py.pyval) (ks : list string) :
  forall acc : Py.dict,
    (forall k, In k ks -> exists v, Py.getitem first k = inr v) ->
    forallb (Stated.stacks_or_type_error features) ks = true ->
    NoDup ks ->
    (forall k, In k ks -> ~ In k (Py.keys acc)) ->
    Py.outcome (Py.for_each ks (CpuTrainer.collate_key features first) acc)
    = inr (acc ++ Further.stacked_columns features ks).
Proof.
  induction ks as [| k ks IH]; intros acc Hfirst Hok Hnodup Hfresh.
  - cbn. now rewrite app_nil_r.
  - cbn [forallb] in Hok. apply andb_true_iff in Hok as [Hk Hks].
    inversion Hnodup as [| ? ? Hnotin Hnodup']; subst.
    destruct (Hfirst k (or_introl eq_refl)) as [v0 Hv0].
    destruct (stacks_or_type_error_cases features k Hk) as (elements & Hel & Hstack).
    rewrite outcome_for_each_cons, outcome_collate_key, Hv0, Hel.
    cbn [Further.stacked_columns]. rewrite Hel.
    destruct Hstack as [[t Ht] | (e & He & Hty)].
    + rewrite Ht, dict_set_fresh by (apply Hfresh; now left).
      rewrite IH; auto.
      * now rewrite <- app_assoc.
      * intros; apply Hfirst; now right.
      * intros k' Hin Hkeys. unfold Py.keys in Hkeys. rewrite map_app in Hkeys.
        apply in_app_or in Hkeys as [Hacc | [<- | []]].
        -- apply (Hfresh k'); [now right | exact Hacc].
        -- contradiction.
    + rewrite He, Hty. apply IH; auto.
      * intros; apply Hfirst; now right.
      * intros k' Hin. apply Hfresh. now right.
Qed.

(** X4: when the keys of the first feature are gathered from every feature
    and stacking fails with a [TypeError] at most, the collator returns the
    stacks of the keys that stack, in the order of the first feature, and
    leaves the other keys out. *)
Theorem collator_keeps_stacked_keys (d : Py.dict) (rest : list Py.pyval) :
  let features := Py.PyDict d :: rest in
  NoDup (Py.keys d) ->
  forallb (Stated.stacks_or_type_error features) (Py.keys d) = true ->
  Py.outcome (CpuTrainer.custom_data_collator features)
  = inr (Further.stacked_columns features (Py.keys d))
  /\ Py.keys (Further.stacked_columns features (Py.keys d))
     = filter (Further.stacks features) (Py.keys d).
Proof.
  intros features Hnodup Hok. subst features. split.
  - destruct (collator_on_dict d rest) as [-> _].
    rewrite for_each_stacked_columns; auto using getitem_first.
  - apply keys_stacked_columns.
Qed.

Lemma collator_keeps_stacked_keys_witness :
  Py.outcome (CpuTrainer.custom_data_collator Samples.batch_of_lists)
  = inr [ ("attention_mask", Samples.tensor [2; 2] [1; 1; 1; 1]%Z) ]
  /\ [ "attention_mask" ]
     = filter (Further.stacks Samples.batch_of_lists) [ "input_ids"; "attention_mask" ].
Proof.
  apply (collator_keeps_stacked_keys
           [("input_ids", Py.PyList [Py.PyInt 464; Py.PyInt 2068]);
            ("attention_mask", Samples.tensor [2] [1; 1]%Z)]
           [Py.PyDict [("input_ids", Py.PyList [Py.PyInt 18045; Py.PyInt 625]);
                       ("attention_mask", Samples.tensor [2] [1; 1]%Z)]]).
  - repeat constructor; simpl; intuition discriminate.
  - reflexivity.
Defined.

(** ** More on the tokenization *)

Lemma row_get_missing (example : CpuTrainer.row) (k : string) :
  ~ In k (map fst example) ->
  CpuTrainer.row_get example k = inl (Py.mkExn Py.KeyError ("'" +++ k +++ "'")).
Proof.
  induction example as [| [k' v] example IH]; cbn [CpuTrainer.row_get map fst In];
    [reflexivity |].
  intros Hnot. destruct (String.eqb_spec k' k) as [-> | Hne]; [tauto |].
  apply IH. tauto.
Qed.

(** X5: an example without a column [text] is a [KeyError] on ['text'],
    whatever its other columns are. *)
Theorem tokenize_function_without_text
        (encode : string -> list Z) (pad_token_id : Z) (example : CpuTrainer.row) :
  ~ In "text" (map fst example) ->
  CpuTrainer.tokenize_function encode pad_token_id example
  = inl (Py.mkExn Py.KeyError "'text'").
Proof.
  intros Hnot. unfold CpuTrainer.tokenize_function.
  now rewrite (row_get_missing example "text" Hnot).
Qed.

Lemma tokenize_function_without_text_witness :
  CpuTrainer.tokenize_function Samples.character_codes Samples.eos_token_id
    [("sentence", "The quick brown fox")]
  = inl (Py.mkExn Py.KeyError "'text'").
Proof.
  apply (tokenize_function_without_text Samples.character_codes Samples.eos_token_id
           [("sentence", "The quick brown fox")]).
  simpl. intuition discriminate.
Defined.

(** X6: the fields of a tokenized example, position by position: the first
    32 ids of the text at most, then the padding token up to 32 positions;
    the mask is 1 at the positions of the ids and 0 at the padding; the labels
    are the input ids with their padding. *)
Theorem tokenize_function_layout
        (encode : string -> list Z) (pad_token_id : Z)
        (example : CpuTrainer.row) (text : string) :
  CpuTrainer.row_get example "text" = inr text ->
  let n := Nat.min 32 (length (encode text)) in
  let input_ids := firstn 32 (encode text) ++ repeat pad_token_id (32 - n) in
  let attention_mask := repeat 1%Z n ++ repeat 0%Z (32 - n) in
  CpuTrainer.tokenize_function encode pad_token_id example
  = inr [ ("input_ids", Py.PyTensor (Py.mkTensor [32] input_ids));
          ("attention_mask", Py.PyTensor (Py.mkTensor [32] attention_mask));
          ("labels", Py.PyTensor (Py.mkTensor [32] input_ids)) ].
Proof.
  intros Htext n input_ids attention_mask.
  rewrite (tokenize_function_on_text encode pad_token_id example text Htext).
  unfold Tokenizer.pad_right.
  rewrite map_const, repeat_length, length_firstn.
  reflexivity.
Qed.

Lemma tokenize_function_layout_witness :
  CpuTrainer.tokenize_function Samples.character_codes Samples.eos_token_id
    [("text", "dog.")]
  = inr [ ("input_ids",
           Py.PyTensor (Py.mkTensor [32] ([100; 111; 103; 46] ++ repeat 50256 28)%Z));
          ("attention_mask",
           Py.PyTensor (Py.mkTensor [32] (repeat 1 4 ++ repeat 0 28)%Z));
          ("labels",
           Py.PyTensor (Py.mkTensor [32] ([100; 111; 103; 46] ++ repeat 50256 28)%Z)) ].
Proof.
  apply (tokenize_function_layout Samples.character_codes Samples.eos_token_id
           [("text", "dog.")] "dog.").
  reflexivity.
Defined.

Lemma mask_count_ones_zeros (n m : nat) :
  Further.mask_count (repeat 1%Z n ++ repeat 0%Z m) = n.
Proof.
  unfold Further.mask_count. rewrite filter_app, length_app.
  assert (H1 : filter (Z.eqb 1) (repeat 1%Z n) = repeat 1%Z n)
    by (induction n as [| n IH]; cbn; [reflexivity | now rewrite IH]).
  assert (H0 : filter (Z.eqb 1) (repeat 0%Z m) = [])
    by (induction m as [| m IH]; cbn; [reflexivity | exact IH]).
  rewrite H1, H0, repeat_length. cbn. lia.
Qed.

(** X7: the attention mask gives the ids of the text back: the input ids at
    the positions the mask counts are the first 32 ids of the text, and all
    of them when the text has 32 ids at most. *)
Theorem tokenize_function_unmask
        (encode : string -> list Z) (pad_token_id : Z)
        (example : CpuTrainer.row) (text : string) :
  CpuTrainer.row_get example "text" = inr text ->
  exists input_ids attention_mask,
    CpuTrainer.tokenize_function encode pad_token_id example
    = inr [ ("input_ids", Py.PyTensor (Py.mkTensor [32] input_ids));
            ("attention_mask", Py.PyTensor (Py.mkTensor [32] attention_mask));
            ("labels", Py.PyTensor (Py.mkTensor [32] input_ids)) ]
    /\ firstn (Further.mask_count attention_mask) input_ids = firstn 32 (encode text)
    /\ (length (encode text) <= 32 ->
        firstn (Further.mask_count attention_mask) input_ids = encode text).
Proof.
  intros Htext.
  rewrite (tokenize_function_on_text encode pad_token_id example text Htext).
  unfold Tokenizer.pad_right.
  rewrite map_const, repeat_length.
  do 2 eexists. split; [reflexivity |].
  rewrite mask_count_ones_zeros.
  assert (Hfirst : firstn (length (firstn 32 (encode text)))
                          (firstn 32 (encode text)
                             ++ repeat pad_token_id
                                  (32 - length (firstn 32 (encode text))))
                   = firstn 32 (encode text)).
  { rewrite firstn_app, firstn_all, Nat.sub_diag. cbn [firstn].
    apply app_nil_r. }
  split; [exact Hfirst |].
  intros Hshort. rewrite Hfirst. now apply firstn_all2.
Qed.

Lemma tokenize_function_unmask_witness :
  exists input_ids attention_mask,
    CpuTrainer.tokenize_function Samples.character_codes Samples.eos_token_id
      [("text", "Another example sentence.")]
    = inr [ ("input_ids", Py.PyTensor (Py.mkTensor [32] input_ids));
            ("attention_mask", Py.PyTensor (Py.mkTensor [32] attention_mask));
            ("labels", Py.PyTensor (Py.mkTensor [32] input_ids)) ]
    /\ firstn (Further.mask_count attention_mask) input_ids
       = firstn 32 (Samples.character_codes "Another example sentence.")
    /\ (length (Samples.character_codes "Another example sentence.") <= 32 ->
        firstn (Further.mask_count attention_mask) input_ids
        = Samples.character_codes "Another example sentence.").
Proof.
  apply (tokenize_function_unmask Samples.character_codes Samples.eos_token_id
           [("text", "Another example sentence.")] "Another example sentence.").
  reflexivity.
Defined.

(** ** Tokenized examples through the collator *)

Lemma first_non_tensor_tensors (ts : list Py.Tensor) :
  forall i, Torch.first_non_tensor i (map Py.PyTensor ts) = None.
Proof. induction ts as [| t ts IH]; intros i; cbn; [reflexivity | apply IH]. Qed.

Lemma tensors_of_tensors (ts : list Py.Tensor) :
  Torch.tensors_of (map Py.PyTensor ts) = ts.
Proof. induction ts as [| t ts IH]; cbn; [reflexivity | now rewrite IH]. Qed.

Lemma first_other_shape_same (s : list nat) (ts : list Py.Tensor) :
  Forall (fun t => Py.shape t = s) ts ->
  forall i, Torch.first_other_shape s i ts = None.
Proof.
  induction 1 as [| t ts Ht _ IH]; intros i; cbn [Torch.first_other_shape];
    [reflexivity |].
  unfold Torch.shape_eqb.
  destruct (list_eq_dec Nat.eq_dec (Py.shape t) s); [apply IH | contradiction].
Qed.

(** Tensors of one shape stack. *)
Lemma stack_same_shape (s : list nat) (ts : list Py.Tensor) :
  ts <> [] ->
  Forall (fun t => Py.shape t = s) ts ->
  Torch.stack (map Py.PyTensor ts)
  = inr (Py.mkTensor (length ts :: s) (concat (map Py.data ts))).
Proof.
  intros Hne Hshape. unfold Torch.stack.
  rewrite first_non_tensor_tensors, tensors_of_tensors.
  destruct ts as [| t0 rest]; [contradiction |].
  inversion Hshape as [| ? ? Ht0 Hrest]; subst.
  now rewrite (first_other_shape_same _ rest Hrest).
Qed.

Section TokenizedBatch.
Import Py CpuTrainer.

Lemma elements_of_tokenized (k : string) (g : list Z * list Z -> list Z)
      (ps : list (list Z * list Z)) :
  (forall p, getitem (Further.feature_of p) k = inr (PyTensor (mkTensor [32] (g p)))) ->
  elements_of (map Further.feature_of ps) k
  = inr (map PyTensor (map (fun p => mkTensor [32] (g p)) ps)).
Proof.
  intros Hget. unfold elements_of.
  induction ps as [| p ps IH]; cbn [map comprehension]; [reflexivity |].
  now rewrite Hget, IH.
Qed.

Lemma stack_tokenized (g : list Z * list Z -> list Z) (ps : list (list Z * list Z)) :
  ps <> [] ->
  Torch.stack (map PyTensor (map (fun p => mkTensor [32] (g p)) ps))
  = inr (mkTensor [length ps; 32] (concat (map g ps))).
Proof.
  intros Hne. rewrite (stack_same_shape [32]).
  - now rewrite length_map, map_map.
  - destruct ps; [contradiction | discriminate].
  - apply Forall_forall. intros t Hin.
    apply in_map_iff in Hin as (p & <- & _). reflexivity.
Qed.

(** The collator on features made by [tokenize_function]. *)
Lemma collator_on_tokenized (ps : list (list Z * list Z)) :
  ps <> [] ->
  outcome (custom_data_collator (map Further.feature_of ps))
  = inr [ ("input_ids", PyTensor (mkTensor [length ps; 32] (concat (map fst ps))));
          ("attention_mask", PyTensor (mkTensor [length ps; 32] (concat (map snd ps))));
          ("labels", PyTensor (mkTensor [length ps; 32] (concat (map fst ps)))) ].
Proof.
  intros Hne. destruct ps as [| p ps']; [contradiction |].
  set (ps := p :: ps') in *.
  pose proof (collator_on_dict
                [ ("input_ids", PyTensor (mkTensor [32] (fst p)));
                  ("attention_mask", PyTensor (mkTensor [32] (snd p)));
                  ("labels", PyTensor (mkTensor [32] (fst p))) ]
                (map Further.feature_of ps')) as [Hout _].
  change (PyDict _ :: map Further.feature_of ps') with (map Further.feature_of ps) in Hout.
  rewrite Hout. cbn [keys map fst].
  assert (Hps : ps <> []) by discriminate.
  rewrite outcome_for_each_cons, outcome_collate_key.
  cbn [getitem dict_get String.eqb Ascii.eqb Bool.eqb].
  rewrite (elements_of_tokenized "input_ids" fst), stack_tokenized
    by (reflexivity || exact Hps).
  rewrite outcome_for_each_cons, outcome_collate_key.
  cbn [getitem dict_get String.eqb Ascii.eqb Bool.eqb].
  rewrite (elements_of_tokenized "attention_mask" snd), stack_tokenized
    by (reflexivity || exact Hps).
  rewrite outcome_for_each_cons, outcome_collate_key.
  cbn [getitem dict_get String.eqb Ascii.eqb Bool.eqb].
  rewrite (elements_of_tokenized "labels" fst), stack_tokenized
    by (reflexivity || exact Hps).
  reflexivity.
Qed.

(** Rows that tokenize give features of that form, with 32 ids and 32 mask
    bits each. *)
Lemma tokenize_rows_features (encode : string -> list Z) (pad_token_id : Z)
      (rows : list row) :
  forall features,
    Further.tokenize_rows encode pad_token_id rows = inr features ->
    Forall (fun f => exists p, f = Further.feature_of p
                               /\ length (fst p) = 32 /\ length (snd p) = 32)
           features.
Proof.
  unfold Further.tokenize_rows.
  induction rows as [| example rows IH]; intros features H; cbn [comprehension] in H.
  - injection H as <-. constructor.
  - destruct (row_get example "text") as [e | text] eqn:Htext.
    + unfold tokenize_function in H. rewrite Htext in H. discriminate.
    + rewrite (tokenize_function_on_text encode pad_token_id example text Htext) in H.
      destruct (comprehension _ rows) as [e | fs]; [discriminate |].
      injection H as <-. constructor; [| now apply IH].
      exists (Tokenizer.pad_right 32 pad_token_id (firstn 32 (encode text)),
              Tokenizer.pad_right 32 0%Z
                (map (fun _ => 1%Z) (firstn 32 (encode text)))).
      split; [reflexivity |].
      split; apply pad_right_length; rewrite ?length_map; apply firstn_le_length.
Qed.

Lemma tokenized_batch (batch : list pyval) :
  Forall (fun f => exists p, f = Further.feature_of p
                             /\ length (fst p) = 32 /\ length (snd p) = 32)
         batch ->
  exists ps, batch = map Further.feature_of ps
             /\ length (concat (map fst ps)) = length batch * 32
             /\ length (concat (map snd ps)) = length batch * 32.
Proof.
  induction 1 as [| f batch (p & -> & Hids & Hmask) _ (ps & -> & Hl1 & Hl2)].
  - exists []. repeat split.
  - exists (p :: ps). cbn [map concat length]. rewrite !length_app, Hids, Hmask, Hl1, Hl2.
    repeat split.
Qed.

(** A batch drawn from features that [tokenize_function] made. *)
Lemma collator_on_drawn_batch (features batch : list pyval) :
  Forall (fun f => exists p, f = Further.feature_of p
                             /\ length (fst p) = 32 /\ length (snd p) = 32)
         features ->
  batch <> [] ->
  (forall f, In f batch -> In f features) ->
  exists input_ids attention_mask,
    outcome (custom_data_collator batch)
    = inr [ ("input_ids", PyTensor (mkTensor [length batch; 32] input_ids));
            ("attention_mask", PyTensor (mkTensor [length batch; 32] attention_mask));
            ("labels", PyTensor (mkTensor [length batch; 32] input_ids)) ]
    /\ length input_ids = length batch * 32
    /\ length attention_mask = length batch * 32.
Proof.
  intros Hfeatures Hne Hdrawn.
  assert (Hbatch : Forall (fun f => exists p, f = Further.feature_of p
                                              /\ length (fst p) = 32
                                              /\ length (snd p) = 32) batch).
  { apply Forall_forall. intros f Hin.
    exact (proj1 (Forall_forall _ _) Hfeatures f (Hdrawn f Hin)). }
  destruct (tokenized_batch batch Hbatch) as (ps & -> & Hl1 & Hl2).
  exists (concat (map fst ps)), (concat (map snd ps)).
  rewrite collator_on_tokenized by (destruct ps; [contradiction | discriminate]).
  rewrite length_map in *. auto.
Qed.

End TokenizedBatch.

(** X8: rows that [tokenize_function] accepts and the collator compose: any
    non-empty batch drawn from their features is collated without an error
    into [input_ids], [attention_mask] and [labels] of shape [n, 32] for a
    batch of [n] features, the labels being the input ids. *)
Theorem collator_on_tokenized_rows
        (encode : string -> list Z) (pad_token_id : Z)
        (rows : list CpuTrainer.row) (features batch : list Py.pyval) :
  Further.tokenize_rows encode pad_token_id rows = inr features ->
  batch <> [] ->
  (forall f, In f batch -> In f features) ->
  exists input_ids attention_mask,
    Py.outcome (CpuTrainer.custom_data_collator batch)
    = inr [ ("input_ids",
             Py.PyTensor (Py.mkTensor [length batch; 32] input_ids));
            ("attention_mask",
             Py.PyTensor (Py.mkTensor [length batch; 32] attention_mask));
            ("labels",
             Py.PyTensor (Py.mkTensor [length batch; 32] input_ids)) ]
    /\ length input_ids = length batch * 32
    /\ length attention_mask = length batch * 32.
Proof.
  intros Hrows Hne Hdrawn.
  apply (collator_on_drawn_batch features batch); auto.
  exact (tokenize_rows_features encode pad_token_id rows features Hrows).
Qed.

Lemma collator_on_tokenized_rows_witness :
  exists features,
    Further.tokenize_rows Samples.character_codes Samples.eos_token_id
      [ [("text", "The quick brown fox")]; [("text", "jumps over the lazy")] ]
    = inr features
    /\ exists input_ids attention_mask,
        Py.outcome (CpuTrainer.custom_data_collator features)
        = inr [ ("input_ids",
                 Py.PyTensor (Py.mkTensor [length features; 32] input_ids));
                ("attention_mask",
                 Py.PyTensor (Py.mkTensor [length features; 32] attention_mask));
                ("labels",
                 Py.PyTensor (Py.mkTensor [length features; 32] input_ids)) ]
        /\ length input_ids = length features * 32
        /\ length attention_mask = length features * 32.
Proof.
  eexists. split; [reflexivity |].
  eapply (collator_on_tokenized_rows Samples.character_codes Samples.eos_token_id
            [ [("text", "The quick brown fox")]; [("text", "jumps over the lazy")] ]).
  - reflexivity.
  - discriminate.
  - intros f Hin. exact Hin.
Defined.

(** X9: the dataset of the script tokenizes into four features whatever the
    encoder is, and every non-empty batch the trainer draws from them is
    collated without an error into tensors of shape [n, 32]. *)
Theorem collator_on_dataset_batches
        (encode : string -> list Z) (pad_token_id : Z) :
  exists features,
    CpuTrainer.tokenized_dataset encode pad_token_id = inr features
    /\ length features = 4
    /\ forall batch,
        batch <> [] ->
        (forall f, In f batch -> In f features) ->
        exists input_ids attention_mask,
          Py.outcome (CpuTrainer.custom_data_collator batch)
          = inr [ ("input_ids",
                   Py.PyTensor (Py.mkTensor [length batch; 32] input_ids));
                  ("attention_mask",
                   Py.PyTensor (Py.mkTensor [length batch; 32] attention_mask));
                  ("labels",
                   Py.PyTensor (Py.mkTensor [length batch; 32] input_ids)) ]
          /\ length input_ids = length batch * 32
          /\ length attention_mask = length batch * 32.
Proof.
  destruct (tokenized_dataset_features encode pad_token_id)
    as (f1 & f2 & f3 & f4 & Hds).
  exists [f1; f2; f3; f4]. split; [exact Hds |]. split; [reflexivity |].
  intros batch Hne Hdrawn.
  apply (collator_on_drawn_batch [f1; f2; f3; f4] batch); auto.
  exact (tokenize_rows_features encode pad_token_id CpuTrainer.mini_data _ Hds).
Qed.

Lemma collator_on_dataset_batches_witness :
  exists features,
    CpuTrainer.tokenized_dataset Samples.character_codes Samples.eos_token_id
    = inr features
    /\ length features = 4
    /\ exists input_ids attention_mask,
        Py.outcome (CpuTrainer.custom_data_collator (firstn 2 features))
        = inr [ ("input_ids", Py.PyTensor (Py.mkTensor [2; 32] input_ids));
                ("attention_mask", Py.PyTensor (Py.mkTensor [2; 32] attention_mask));
                ("labels", Py.PyTensor (Py.mkTensor [2; 32] input_ids)) ]
        /\ length input_ids = 2 * 32
        /\ length attention_mask = 2 * 32.
Proof.
  destruct (collator_on_dataset_batches Samples.character_codes Samples.eos_token_id)
    as (features & Hds & Hlen & Hbatch).
  exists features. split; [exact Hds |]. split; [exact Hlen |].
  destruct features as [| a [| b [| c [| d [| ? ?]]]]]; try discriminate Hlen.
  apply (Hbatch [a; b]).
  - discriminate.
  - intros f [<- | [<- | []]]; simpl; auto.
Defined.

(** ** More on the task runner *)



(** X11: every target of the Makefile is declared phony, and nothing else
    is; the goal of [make] without arguments is [all]. *)
Theorem makefile_targets_phony :
  Further.phony_targets Makefile.makefile = Makefile.targets Makefile.makefile
  /\ Further.default_goal Makefile.makefile = Some "all".
Proof. split; vm_compute; reflexivity. Qed.

(** X12: [make lint] runs black and ruff in checking mode and then, through
    [make mypy], mypy; no target runs pylint, which the description of [lint]
    names; and following the [make] commands of any recipe once leaves no
    [make] command. *)
Theorem lint_runs_mypy_target :
  Further.runs "lint"
  = [ [ "poetry"; "run"; "black"; "--check"; "." ];
      [ "poetry"; "run"; "ruff"; "check"; "." ];
      [ "poetry"; "run"; "mypy"; "twenty_percent" ] ]
  /\ forallb (fun t => forallb (fun c => forallb (fun w => negb (Text.contains "pylint" w)) c)
                               (Further.runs t))
             (Makefile.targets Makefile.makefile) = true
  /\ existsb (fun r => String.eqb (Makefile.target r) "lint"
                       && Text.contains "pylint" (Makefile.rule_line r))
             (Makefile.rules Makefile.makefile) = true
  /\ forallb (fun t => forallb (fun c => negb (String.eqb (Makefile.tool c) "make"))
                               (Further.runs t))
             (Makefile.targets Makefile.makefile) = true.
Proof. repeat split; vm_compute; reflexivity. Qed.

(** ** What the collator prints around its work *)

(** X13: whatever the features are, the collator first prints its opening
    text and the type of the features; whenever it returns, the last text it
    printed is its closing text. *)
Theorem collator_brackets_its_output (features : list Py.pyval) :
  (exists texts,
      Py.printed (CpuTrainer.custom_data_collator features)
      = (Text.nl +++ "--- Inside data collator ---")
          :: "Type of 'features': <class 'list'>" :: texts)
  /\ forall batch,
      Py.outcome (CpuTrainer.custom_data_collator features) = inr batch ->
      exists texts,
        Py.printed (CpuTrainer.custom_data_collator features)
        = texts ++ [ "--- End data collator ---" +++ Text.nl ].
Proof.
  destruct features as [| first rest].
  - split; [eexists; reflexivity |]. intros batch _.
    exists [ Text.nl +++ "--- Inside data collator ---";
             "Type of 'features': <class 'list'>" ]. reflexivity.
  - assert (Hother : Further.not_a_dict first = true ->
                     (exists texts,
                         Py.printed (CpuTrainer.custom_data_collator (first :: rest))
                         = (Text.nl +++ "--- Inside data collator ---")
                             :: "Type of 'features': <class 'list'>" :: texts)
                     /\ forall batch,
                         Py.outcome (CpuTrainer.custom_data_collator (first :: rest))
                         = inr batch ->
                         exists texts,
                           Py.printed (CpuTrainer.custom_data_collator (first :: rest))
                           = texts ++ [ "--- End data collator ---" +++ Text.nl ]).
    { intros Hnot.
      assert (Heq : CpuTrainer.custom_data_collator (first :: rest)
                    = ( [ Text.nl +++ "--- Inside data collator ---";
                          "Type of 'features': <class 'list'>";
                          "Length of 'features': " +++ Text.of_nat (S (length rest));
                          "Type of 'features[0]': " +++ Py.class_text first;
                          "  'features[0]' is NOT a dictionary!" ]
                          ++ [ "--- End data collator ---" +++ Text.nl ],
                        inr [] ))
        by (destruct first; try discriminate Hnot; reflexivity).
      rewrite Heq. split; eexists; reflexivity. }
    destruct first as [ | | | | | | d]; try (apply Hother; reflexivity).
    destruct (collator_on_dict d rest) as [Hout Hprinted].
    split.
    + eexists. rewrite Hprinted. reflexivity.
    + intros batch Hbatch. rewrite Hout in Hbatch.
      rewrite Hprinted, Hbatch, app_assoc. eexists. reflexivity.
Qed.

Lemma collator_brackets_its_output_witness :
  exists texts,
    Py.printed (CpuTrainer.custom_data_collator Samples.batch_of_tensors)
    = texts ++ [ "--- End data collator ---" +++ Text.nl ].
Proof.
  apply (proj2 (collator_brackets_its_output Samples.batch_of_tensors)
           [ ("input_ids", Samples.tensor [2; 3] [464; 2068; 7586; 18045; 625; 50256]%Z);
             ("attention_mask", Samples.tensor [2; 3] [1; 1; 1; 1; 1; 0]%Z) ]).
  reflexivity.
Defined.

(** ** The collator against the stack collation *)

Lemma elements_of_tensors_across (ds : list Py.dict) (k : string) :
  forall ts,
    Reference.tensors_across ds k = Some ts ->
    CpuTrainer.elements_of (map Py.PyDict ds) k = inr (map Py.PyTensor ts).
Proof.
  unfold CpuTrainer.elements_of.
  induction ds as [| d ds IH]; intros ts H; cbn [Reference.tensors_across] in H.
  - injection H as <-. reflexivity.
  - cbn [map Py.comprehension Py.getitem].
    destruct (Py.dict_get d k) as [v |]; [| discriminate].
    destruct v; try discriminate.
    destruct (Reference.tensors_across ds k) as [ts' |]; [| discriminate].
    injection H as <-. now rewrite (IH ts' eq_refl).
Qed.

Lemma tensors_across_length (ds : list Py.dict) (k : string) :
  forall ts, Reference.tensors_across ds k = Some ts -> length ts = length ds.
Proof.
  induction ds as [| d ds IH]; intros ts H; cbn [Reference.tensors_across] in H.
  - injection H as <-. reflexivity.
  - destruct (Py.dict_get d k) as [v |]; [| discriminate].
    destruct v; try discriminate.
    destruct (Reference.tensors_across ds k) as [ts' |]; [| discriminate].
    injection H as <-. cbn. f_equal. now apply IH.
Qed.

Lemma collate_columns_stack_columns (ds : list Py.dict) (ks : list string) :
  forall b,
    Reference.collate_columns ds ks = Some b ->
    CpuTrainer.stack_columns (map Py.PyDict ds) ks = Some b.
Proof.
  induction ks as [| k ks IH]; intros b H; cbn [Reference.collate_columns] in H.
  - exact H.
  - destruct (Reference.tensors_across ds k) as [ts |] eqn:Hts; [| discriminate].
    destruct (Torch.stack (map Py.PyTensor ts)) as [e | t] eqn:Hst; [discriminate |].
    destruct (Reference.collate_columns ds ks) as [b' |]; [| discriminate].
    injection H as <-. cbn [CpuTrainer.stack_columns].
    now rewrite (elements_of_tensors_across ds k ts Hts), Hst, (IH b' eq_refl).
Qed.

Lemma collate_columns_defined (ds : list Py.dict) (ks : list string) :
  (forall k, In k ks ->
             exists ts t,
               Reference.tensors_across ds k = Some ts
               /\ Torch.stack (map Py.PyTensor ts) = inr t) ->
  exists b, Reference.collate_columns ds ks = Some b.
Proof.
  induction ks as [| k ks IH]; intros H; [now exists [] |].
  destruct (H k (or_introl eq_refl)) as (ts & t & Hts & Hst).
  destruct IH as [b Hb]; [intros; apply H; now right |].
  exists ((k, Py.PyTensor t) :: b).
  cbn [Reference.collate_columns]. now rewrite Hts, Hst, Hb.
Qed.

Lemma collate_columns_lookup (ds : list Py.dict) (ks : list string) :
  forall b k ts,
    Reference.collate_columns ds ks = Some b ->
    In k ks ->
    Reference.tensors_across ds k = Some ts ->
    exists t, Torch.stack (map Py.PyTensor ts) = inr t
              /\ Py.dict_get b k = Some (Py.PyTensor t).
Proof.
  induction ks as [| k0 ks IH]; intros b k ts H Hin Hts; [destruct Hin |].
  cbn [Reference.collate_columns] in H.
  destruct (Reference.tensors_across ds k0) as [ts0 |] eqn:Hts0; [| discriminate].
  destruct (Torch.stack (map Py.PyTensor ts0)) as [e | t0] eqn:Hst0; [discriminate |].
  destruct (Reference.collate_columns ds ks) as [b' |] eqn:Hb'; [| discriminate].
  injection H as <-. cbn [Py.dict_get].
  destruct (String.eqb_spec k0 k) as [-> | Hne].
  - rewrite Hts in Hts0. injection Hts0 as <-. now exists t0.
  - destruct Hin as [-> | Hin]; [contradiction |].
    exact (IH b' k ts eq_refl Hin Hts).
Qed.

Lemma map_PyTensor_injective (ts ts' : list Py.Tensor) :
  map Py.PyTensor ts = map Py.PyTensor ts' -> ts = ts'.
Proof.
  revert ts'; induction ts as [| t ts IH]; intros [| t' ts'] H;
    try discriminate; [reflexivity |].
  cbn [map] in H. injection H as -> H. f_equal. now apply IH.
Qed.

(** C2: on a non-empty list of dict-shaped features whose values are
    stackable tensors (for every key of the first feature, every feature
    holds a tensor and the tensors stack), the collator returns exactly the
    default stack-based collation: the dict with the same keys, each mapped
    to the stack of that key's tensors across the features, that is the
    tensor whose first dimension is the number of features and whose
    elements are those of the features' tensors one after the other;
    whatever is printed. *)
Theorem collator_returns_stack_collation (d : Py.dict) (ds : list Py.dict) :
  let features := map Py.PyDict (d :: ds) in
  NoDup (Py.keys d) ->
  (forall k, In k (Py.keys d) ->
             exists ts t,
               Reference.tensors_across (d :: ds) k = Some ts
               /\ Torch.stack (map Py.PyTensor ts) = inr t) ->
  exists batch,
    Reference.default_stack_collation (d :: ds) = Some batch
    /\ CpuTrainer.stack_collation features = Some batch
    /\ Py.outcome (CpuTrainer.custom_data_collator features) = inr batch
    /\ Py.keys batch = Py.keys d
    /\ forall k ts,
        In k (Py.keys d) ->
        Reference.tensors_across (d :: ds) k = Some ts ->
        exists t s,
          Torch.stack (map Py.PyTensor ts) = inr t
          /\ Py.dict_get batch k = Some (Py.PyTensor t)
          /\ Forall (fun t' => Py.shape t' = s) ts
          /\ t = Py.mkTensor (length (d :: ds) :: s) (concat (map Py.data ts)).
Proof.
  intros features Hnodup Hstackable. subst features.
  destruct (collate_columns_defined (d :: ds) (Py.keys d) Hstackable) as [batch Hb].
  pose proof (collate_columns_stack_columns _ _ _ Hb) as Hcols.
  exists batch. split; [exact Hb |]. split; [exact Hcols |]. split; [| split].
  - cbn [map] in *. destruct (collator_on_dict d (map Py.PyDict ds)) as [-> _].
    rewrite (for_each_stack_columns _ (Py.PyDict d) (Py.keys d) [] batch);
      auto using getitem_first.
  - exact (stack_columns_keys _ _ _ Hcols).
  - intros k ts Hin Hts.
    destruct (collate_columns_lookup _ _ _ _ _ Hb Hin Hts) as (t & Hst & Hget).
    destruct (stack_succeeds _ _ Hst) as (ts' & s & Heq & Hshape & _ & Ht).
    apply map_PyTensor_injective in Heq. subst ts'.
    exists t, s. repeat split; try assumption.
    rewrite Ht, length_map. f_equal. f_equal.
    exact (tensors_across_length _ _ _ Hts).
Qed.

Lemma collator_returns_stack_collation_witness :
  Py.outcome (CpuTrainer.custom_data_collator Samples.batch_of_tensors)
  = inr [ ("input_ids",
           Samples.tensor [2; 3] [464; 2068; 7586; 18045; 625; 50256]%Z);
          ("attention_mask", Samples.tensor [2; 3] [1; 1; 1; 1; 1; 0]%Z) ].
Proof.
  destruct (collator_returns_stack_collation
              [("input_ids", Samples.tensor [3] [464; 2068; 7586]%Z);
               ("attention_mask", Samples.tensor [3] [1; 1; 1]%Z)]
              [ [("input_ids", Samples.tensor [3] [18045; 625; 50256]%Z);
                 ("attention_mask", Samples.tensor [3] [1; 1; 0]%Z)] ])
    as (batch & Hdefault & _ & Hout & _).
  - repeat constructor; simpl; intuition discriminate.
  - intros k [<- | [<- | []]]; eexists; eexists; split; reflexivity.
  - vm_compute in Hdefault. injection Hdefault as <-. exact Hout.
Defined.

(** ** The tokenized fields *)

(** C5: the example data is a list of exactly four texts, and for every
    example with a text [tokenize_function] tokenizes with truncation and
    with padding to the maximum length 32: the input ids are the first 32 ids
    of the text at most, followed by the padding token up to 32 positions,
    the mask is 1 at the ids and 0 at the padding, the labels are the input
    ids, and each of the three fields is a tensor of exactly 32 elements. *)
Theorem tokenized_fields_have_length_32
        (encode : string -> list Z) (pad_token_id : Z) :
  map (fun example => CpuTrainer.row_get example "text") CpuTrainer.mini_data
  = [ inr "The quick brown fox"; inr "jumps over the lazy";
      inr "dog. This is a test."; inr "Another example sentence." ]
  /\ forall example text,
      CpuTrainer.row_get example "text" = inr text ->
      let ids := firstn 32 (encode text) in
      let input_ids := ids ++ repeat pad_token_id (32 - length ids) in
      let attention_mask :=
        map (fun _ => 1%Z) ids ++ repeat 0%Z (32 - length ids) in
      CpuTrainer.tokenize_function encode pad_token_id example
      = inr [ ("input_ids", Py.PyTensor (Py.mkTensor [32] input_ids));
              ("attention_mask", Py.PyTensor (Py.mkTensor [32] attention_mask));
              ("labels", Py.PyTensor (Py.mkTensor [32] input_ids)) ]
      /\ length ids <= 32
      /\ length input_ids = 32
      /\ length attention_mask = 32.
Proof.
  split; [reflexivity |].
  intros example text Htext ids input_ids attention_mask.
  assert (Hids : length ids <= 32) by apply firstn_le_length.
  split; [| split; [exact Hids | split]].
  - rewrite (tokenize_function_on_text encode pad_token_id example text Htext).
    unfold Tokenizer.pad_right. fold ids. now rewrite length_map.
  - unfold input_ids. rewrite length_app, repeat_length. lia.
  - unfold attention_mask. rewrite length_app, length_map, repeat_length. lia.
Qed.

Lemma tokenized_fields_have_length_32_witness :
  CpuTrainer.tokenize_function Samples.character_codes Samples.eos_token_id
    [("text", "The quick brown fox")]
  = inr [ ("input_ids",
           Py.PyTensor
             (Py.mkTensor [32]
                ([84; 104; 101; 32; 113; 117; 105; 99; 107; 32; 98; 114; 111;
                  119; 110; 32; 102; 111; 120]
                   ++ repeat 50256 13)%Z));
          ("attention_mask",
           Py.PyTensor (Py.mkTensor [32] (repeat 1 19 ++ repeat 0 13)%Z));
          ("labels",
           Py.PyTensor
             (Py.mkTensor [32]
                ([84; 104; 101; 32; 113; 117; 105; 99; 107; 32; 98; 114; 111;
                  119; 110; 32; 102; 111; 120]
                   ++ repeat 50256 13)%Z)) ]
  /\ length (firstn 32 (Samples.character_codes "The quick brown fox")) <= 32
  /\ length ([84; 104; 101; 32; 113; 117; 105; 99; 107; 32; 98; 114; 111;
              119; 110; 32; 102; 111; 120]
               ++ repeat 50256 13)%Z = 32
  /\ length (repeat 1 19 ++ repeat 0 13)%Z = 32.
Proof.
  apply (proj2 (tokenized_fields_have_length_32
                  Samples.character_codes Samples.eos_token_id)
           [("text", "The quick brown fox")] "The quick brown fox").
  reflexivity.
Defined.

(** ** The task runner *)

(** C7, as stated, fails: not every target runs third-party developer tools
    only; [clean] runs [rm] and nothing else. *)
Lemma clean_runs_a_shell_utility :
  Stated.targets_run_developer_tools_only = false
  /\ option_map Makefile.tools (Makefile.find_rule "clean")
     = Some [ "rm"; "rm"; "rm"; "rm"; "rm" ].
Proof. split; vm_compute; reflexivity. Qed.

(** C7, amended: the rules of the Makefile are those of the nine targets;
    [make all] prints a usage text and then the rule line of every target,
    which starts with the target's name; [format], [test], [mypy], [install]
    and [install-dev] run third-party developer tools only, [lint] runs them
    and [make mypy], which runs mypy, [megalint] runs docker after make has
    run [pwd] for the path to mount, and [all] and [clean] run the shell
    utilities [echo], [fgrep] and [rm]; no command handles an exit code on
    its own, and the file assigns no variable but [.DEFAULT_GOAL]. *)
Theorem makefile_targets_and_recipes :
  Makefile.targets Makefile.makefile
  = [ "all"; "clean"; "format"; "lint"; "test"; "mypy"; "install";
      "install-dev"; "megalint" ]
  /\ Makefile.make_prints "all"
     = Some ([ "Usage: make <target>"; EmptyString; "Targets:" ]
               ++ map Makefile.rule_line (Makefile.rules Makefile.makefile))
  /\ forallb (fun r => String.prefix (Makefile.target r +++ ":") (Makefile.rule_line r))
             (Makefile.rules Makefile.makefile) = true
  /\ map (fun r => (Makefile.target r, Makefile.tools r))
         (Makefile.rules Makefile.makefile)
     = [ ("all", [ "echo"; "echo"; "echo"; "fgrep"; "fgrep" ]);
         ("clean", [ "rm"; "rm"; "rm"; "rm"; "rm" ]);
         ("format", [ "black"; "ruff" ]);
         ("lint", [ "black"; "ruff"; "make" ]);
         ("test", [ "pytest" ]);
         ("mypy", [ "mypy" ]);
         ("install", [ "poetry" ]);
         ("install-dev", [ "poetry" ]);
         ("megalint", [ "pwd"; "docker" ]) ]
  /\ map Makefile.target
         (filter (fun r => forallb (fun t => Text.mem t Makefile.developer_tools)
                                   (Makefile.tools r))
                 (Makefile.rules Makefile.makefile))
     = [ "format"; "test"; "mypy"; "install"; "install-dev" ]
  /\ map Makefile.tool (Further.runs "lint") = [ "black"; "ruff"; "mypy" ]
  /\ forallb (fun r => forallb (fun c => negb (Makefile.handles_exit_code c))
                               (Makefile.commands r))
             (Makefile.rules Makefile.makefile) = true
  /\ Makefile.assignments Makefile.makefile = [ ".DEFAULT_GOAL := all" ].
Proof. repeat split; vm_compute; reflexivity. Qed.

(** Where a line holds no [$], make reads its words as the shell does. *)
Lemma make_split_aux_plain (s : string) :
  forall quoted started cur,
    Text.contains "$" s = false ->
    Makefile.make_split_aux 0 false quoted started cur s
    = Text.shell_split_aux quoted started cur s.
Proof.
  induction s as [| a s IH]; intros quoted started cur Hplain; [reflexivity |].
  cbn [Text.contains] in Hplain. apply orb_false_iff in Hplain as [Hhead Hrest].
  cbn [Makefile.make_split_aux Text.shell_split_aux Nat.eqb].
  rewrite !andb_true_r.
  destruct (Ascii.eqb a "034"%char); [now apply IH |].
  destruct (negb quoted && Text.is_blank a); [now rewrite IH |].
  assert (Hdollar : Ascii.eqb a "$"%char = false).
  { cbn [String.prefix] in Hhead.
    destruct (Ascii.ascii_dec "$"%char a) as [Heq | Hne].
    - destruct s; discriminate Hhead.
    - apply Ascii.eqb_neq. congruence. }
  rewrite Hdollar, andb_false_r.
  destruct (Ascii.eqb a ")"%char); cbn [pred]; now apply IH.
Qed.

Lemma make_split_plain (s : string) :
  Text.contains "$" s = false -> Makefile.make_split s = Text.shell_split s.
Proof. apply make_split_aux_plain. Qed.
